(** * OpenAI-Python-Wrapper: the request/response normalisation layer

    A shallow embedding of
      - [src/utils/openai_utils.py]     (class [OpenAIUtils], the provider adapter),
      - [src/services/openai_service.py] (class [OpenAIService], the operation service),
      - [src/routes/api_routes.py]       (the three route functions),
    and the properties of the specification that concern them.

    Python values are a small dynamically typed universe; exceptions are
    first-class results; the one effect of the program, the awaited call to
    the provider, is an event appended to a log of outbound calls and
    answered by the environment. *)

From Stdlib Require Import ZArith String PrimFloat.
From stdpp Require Import base strings gmap list pretty.

Set Warnings "-register-all,-inexact-float".
Local Open Scope Z_scope.

(* ===================================================================== *)
(** ** Python values *)
(* ===================================================================== *)

(** [VDict] is a plain [dict] (keyword arguments, the chat message of
    [translate_text], the mapping a service returns); [VObj] is an
    [openai.OpenAIObject], a dict subclass whose keys can also be read as
    attributes. *)
Inductive value : Type :=
| VNone
| VStr (s : string)
| VInt (n : Z)
| VFloat (f : float)
| VList (l : list value)
| VDict (d : gmap string value)
| VObj (d : gmap string value).

Definition type_name (v : value) : string :=
  match v with
  | VNone => "NoneType"
  | VStr _ => "str"
  | VInt _ => "int"
  | VFloat _ => "float"
  | VList _ => "list"
  | VDict _ => "dict"
  | VObj _ => "OpenAIObject"
  end.

(** [Optional[T]] arguments: Python's [None] or the value. *)
Definition of_optional {A} (inj : A -> value) (o : option A) : value :=
  match o with
  | None => VNone
  | Some a => inj a
  end.

(* ===================================================================== *)
(** ** Exceptions *)
(* ===================================================================== *)

(** The exception classes that can be named in an [except] clause or be
    raised by attribute access, indexing, name lookup and JSON rendering,
    together with the provider library's error classes.  Every class here
    derives from [Exception]: the exceptions of the model are the instances
    of [Exception].  What derives from [BaseException] only
    ([KeyboardInterrupt], [SystemExit], [asyncio.CancelledError]) is no
    exception of the model; no [except] clause of the program catches it. *)
Inductive exc_class : Type :=
| Exception
| OpenAIError
| APIError
| RateLimitError
| APIConnectionError
| LookupError
| IndexError
| KeyError
| AttributeError
| TypeError
| NameError
| ValueError.

Global Instance exc_class_eq_dec : EqDecision exc_class.
Proof. solve_decision. Defined.

(** Method resolution order, restricted to the classes above. *)
Definition mro (c : exc_class) : list exc_class :=
  match c with
  | Exception => [Exception]
  | OpenAIError => [OpenAIError; Exception]
  | APIError => [APIError; OpenAIError; Exception]
  | RateLimitError => [RateLimitError; OpenAIError; Exception]
  | APIConnectionError => [APIConnectionError; OpenAIError; Exception]
  | LookupError => [LookupError; Exception]
  | IndexError => [IndexError; LookupError; Exception]
  | KeyError => [KeyError; LookupError; Exception]
  | AttributeError => [AttributeError; Exception]
  | TypeError => [TypeError; Exception]
  | NameError => [NameError; Exception]
  | ValueError => [ValueError; Exception]
  end.

(** An exception object.  [Raised c text] is an instance of class [c] whose
    [str()] is [text]; [HTTPException] is [fastapi.HTTPException] with the
    two fields the program sets. *)
Inductive exc : Type :=
| Raised (cls : exc_class) (text : string)
| HTTPException (status_code : Z) (detail : string).

(** [isinstance(e, c)].  [fastapi.HTTPException] derives from [Exception]
    and from none of the other classes above. *)
Definition isinstance (e : exc) (c : exc_class) : bool :=
  match e with
  | Raised cls _ => bool_decide (c ∈ mro cls)
  | HTTPException _ _ => bool_decide (c = Exception)
  end.

Inductive result (A : Type) : Type :=
| Ok (a : A)
| Raise (e : exc).
Arguments Ok {A} a.
Arguments Raise {A} e.

(* ===================================================================== *)
(** ** The environment: provider and installed libraries *)
(* ===================================================================== *)

(** An outbound call to the provider, with its keyword arguments. *)
Inductive call : Type :=
| Completion_create (kwargs : gmap string value)
| ChatCompletion_create (kwargs : gmap string value).

(** What the program does not determine:
    - [provider history c] is the outcome of awaiting the call [c] after the
      calls in [history] were made: the provider's response object or the
      exception the call raises;
    - [str_HTTPException status detail] is [str(e)] for an [HTTPException];
      it depends on the installed version of the HTTP framework;
    - [JSONResponse_render content] is what rendering [content] as the body
      of a [JSONResponse] raises, [None] when it renders: the framework
      calls [json.dumps] with [allow_nan=False], which refuses a float that
      is not finite and has limits of its own on what it accepts. *)
Record env : Type := {
  provider : list call -> call -> result value;
  str_HTTPException : Z -> string -> string;
  JSONResponse_render : gmap string value -> option exc
}.

(** [str(e)], as interpolated by the f-strings [f"...: {e}"]. *)
Definition str (E : env) (e : exc) : string :=
  match e with
  | Raised _ text => text
  | HTTPException status_code detail => str_HTTPException E status_code detail
  end.

(* ===================================================================== *)
(** ** Computations: environment, call log, exceptions *)
(* ===================================================================== *)

Definition M (A : Type) : Type := env -> list call -> result A * list call.

Definition ret {A} (a : A) : M A := fun _ log => (Ok a, log).

Definition bind {A B} (m : M A) (k : A -> M B) : M B :=
  fun E log =>
    match m E log with
    | (Ok a, log') => k a E log'
    | (Raise e, log') => (Raise e, log')
    end.

Definition raise {A} (e : exc) : M A := fun _ log => (Raise e, log).

Definition lift {A} (r : result A) : M A := fun _ log => (r, log).

(** [await openai.X.create(...)]: one call, logged, answered by the
    provider. *)
Definition await (c : call) : M value :=
  fun E log => (provider E log c, log ++ [c]).

(** [str(e)] inside a computation. *)
Definition fstr (pre : string) (e : exc) : M string :=
  fun E log => (Ok (pre +:+ str E e), log).

Declare Scope py_scope.
Delimit Scope py_scope with py.
Notation "x <- m ;; k" := (bind m (fun x => k))
  (at level 100, m at next level, right associativity) : py_scope.
Local Open Scope py_scope.

(** An [except C as e: h] clause.  The expression [C] is evaluated when an
    exception reaches the clause and may itself raise (an unbound name). *)
Definition clause (A : Type) : Type := (result exc_class * (exc -> M A))%type.

(** The clauses of a [try] statement, tried in order for the exception [e]. *)
Fixpoint handle {A} (clauses : list (clause A)) (e : exc) : M A :=
  match clauses with
  | [] => raise e
  | (Ok c, h) :: rest => if isinstance e c then h e else handle rest e
  | (Raise e', _) :: _ => raise e'
  end.

(** [try: body  except ...]. *)
Definition try_except {A} (body : M A) (clauses : list (clause A)) : M A :=
  fun E log =>
    match body E log with
    | (Ok a, log') => (Ok a, log')
    | (Raise e, log') => handle clauses e E log'
    end.

(** Resolution of the expression [openai.error.APIError] in a module whose
    global names are [globals]. *)
Definition openai_error_APIError (globals : list string) : result exc_class :=
  if bool_decide ("openai" ∈ globals) then Ok APIError
  else Raise (Raised NameError "name 'openai' is not defined").

(** The built-in name [Exception] is always bound. *)
Definition builtin_Exception : result exc_class := Ok Exception.

(* ===================================================================== *)
(** ** Attribute access and indexing *)
(* ===================================================================== *)

(** [v.name], for the names the service reads ([choices], [text],
    [message], [content]): none of them is an attribute of a built-in type,
    and on an [OpenAIObject] a missing key raises [AttributeError(name)]. *)
Definition getattr (v : value) (name : string) : result value :=
  match v with
  | VObj d =>
      match d !! name with
      | Some x => Ok x
      | None => Raise (Raised AttributeError name)
      end
  | _ =>
      Raise (Raised AttributeError
               ("'" +:+ type_name v +:+ "' object has no attribute '" +:+ name +:+ "'"))
  end.

(** Python's index normalisation for a sequence of length [n]. *)
Definition seq_index (n : nat) (i : Z) : option nat :=
  let j := if i <? 0 then i + Z.of_nat n else i in
  if (0 <=? j) && (j <? Z.of_nat n) then Some (Z.to_nat j) else None.

Definition string_get (s : string) (i : nat) : option string :=
  match String.get i s with
  | Some a => Some (String a EmptyString)
  | None => None
  end.

(** [v[i]] for an integer [i].  The keys of the modelled mappings are
    strings, so an integer key is never present. *)
Definition getitem (v : value) (i : Z) : result value :=
  match v with
  | VList l =>
      match seq_index (length l) i ≫= (fun j => l !! j) with
      | Some x => Ok x
      | None => Raise (Raised IndexError "list index out of range")
      end
  | VStr s =>
      match seq_index (String.length s) i ≫= string_get s with
      | Some c => Ok (VStr c)
      | None => Raise (Raised IndexError "string index out of range")
      end
  | VDict _ | VObj _ => Raise (Raised KeyError (pretty i))
  | _ => Raise (Raised TypeError ("'" +:+ type_name v +:+ "' object is not subscriptable"))
  end.

(* ===================================================================== *)
(** ** Arguments of the operations *)
(* ===================================================================== *)

(** The eight parameters shared by [generate_text] and [complete_code], at
    the types of their annotations. *)
Record generation_args : Type := {
  prompt : string;
  model : string;
  max_tokens : option Z;
  temperature : float;
  top_p : option float;
  frequency_penalty : float;
  presence_penalty : float;
  stop : option string
}.

(** The three parameters of [translate_text]. *)
Record translation_args : Type := {
  text : string;
  target_language : string;
  translation_model : string
}.

(** The default values a signature gives to the parameters after [prompt]. *)
Record generation_defaults : Type := {
  default_model : string;
  default_max_tokens : option Z;
  default_temperature : float;
  default_top_p : option float;
  default_frequency_penalty : float;
  default_presence_penalty : float;
  default_stop : option string
}.

(** A call site: [prompt] is required, every other parameter may be left
    out ([None] here), in which case the signature's default is bound. *)
Record generation_request : Type := {
  req_prompt : string;
  req_model : option string;
  req_max_tokens : option Z;
  req_temperature : option float;
  req_top_p : option float;
  req_frequency_penalty : option float;
  req_presence_penalty : option float;
  req_stop : option string
}.

Definition bind_defaults (d : generation_defaults) (r : generation_request)
  : generation_args :=
  {| prompt := req_prompt r;
     model := default (default_model d) (req_model r);
     max_tokens := match req_max_tokens r with Some n => Some n | None => default_max_tokens d end;
     temperature := default (default_temperature d) (req_temperature r);
     top_p := match req_top_p r with Some p => Some p | None => default_top_p d end;
     frequency_penalty := default (default_frequency_penalty d) (req_frequency_penalty r);
     presence_penalty := default (default_presence_penalty d) (req_presence_penalty r);
     stop := match req_stop r with Some s => Some s | None => default_stop d end |}.

Record translation_request : Type := {
  req_text : string;
  req_target_language : string;
  req_translation_model : option string
}.

(** The keyword arguments of [openai.Completion.create] as both adapter
    operations write them: all eight keywords, always. *)
Definition completion_kwargs (a : generation_args) : gmap string value :=
  {[ "engine" := VStr (model a);
     "prompt" := VStr (prompt a);
     "max_tokens" := of_optional VInt (max_tokens a);
     "temperature" := VFloat (temperature a);
     "top_p" := of_optional VFloat (top_p a);
     "frequency_penalty" := VFloat (frequency_penalty a);
     "presence_penalty" := VFloat (presence_penalty a);
     "stop" := of_optional VStr (stop a) ]}.

(* ===================================================================== *)
(** ** [src/utils/openai_utils.py]: class [OpenAIUtils] *)
(* ===================================================================== *)

Module OpenAIUtils.

(** Names bound at module level. *)
Definition globals : list string :=
  ["os"; "Dict"; "Any"; "Optional"; "openai"; "HTTPException"; "Config";
   "OpenAIUtils"].

Definition generate_text_defaults : generation_defaults :=
  {| default_model := "text-davinci-003";
     default_max_tokens := None;
     default_temperature := 0.7%float;
     default_top_p := None;
     default_frequency_penalty := 0.0%float;
     default_presence_penalty := 0.0%float;
     default_stop := None |}.

Definition generate_text (a : generation_args) : M value :=
  try_except
    (response <- await (Completion_create (completion_kwargs a)) ;;
     ret response)
    [ (openai_error_APIError globals,
       fun e => d <- fstr "OpenAI API Error: " e ;; raise (HTTPException 500 d));
      (builtin_Exception,
       fun e => d <- fstr "Error generating text: " e ;; raise (HTTPException 500 d)) ].

Definition translate_text_default_model : string := "gpt-3.5-turbo".

Definition translate_text (a : translation_args) : M value :=
  try_except
    (response <-
       await (ChatCompletion_create
                {[ "model" := VStr (translation_model a);
                   "messages" :=
                     VList [ VDict {[ "role" := VStr "user";
                                      "content" :=
                                        VStr ("Translate this text into "
                                              +:+ target_language a +:+ ": "
                                              +:+ text a) ]} ] ]}) ;;
     ret response)
    [ (openai_error_APIError globals,
       fun e => d <- fstr "OpenAI API Error: " e ;; raise (HTTPException 500 d));
      (builtin_Exception,
       fun e => d <- fstr "Error translating text: " e ;; raise (HTTPException 500 d)) ].

Definition complete_code_defaults : generation_defaults :=
  {| default_model := "code-davinci-002";
     default_max_tokens := None;
     default_temperature := 0.7%float;
     default_top_p := None;
     default_frequency_penalty := 0.0%float;
     default_presence_penalty := 0.0%float;
     default_stop := None |}.

Definition complete_code (a : generation_args) : M value :=
  try_except
    (response <- await (Completion_create (completion_kwargs a)) ;;
     ret response)
    [ (openai_error_APIError globals,
       fun e => d <- fstr "OpenAI API Error: " e ;; raise (HTTPException 500 d));
      (builtin_Exception,
       fun e => d <- fstr "Error completing code: " e ;; raise (HTTPException 500 d)) ].

End OpenAIUtils.

(* ===================================================================== *)
(** ** [src/services/openai_service.py]: class [OpenAIService] *)
(* ===================================================================== *)

Module OpenAIService.

Definition globals : list string :=
  ["os"; "Dict"; "Any"; "Optional"; "openai"; "HTTPException"; "openai_utils";
   "Config"; "OpenAIService"].

(** The signatures repeat the adapter's defaults. *)
Definition generate_text_defaults : generation_defaults :=
  {| default_model := "text-davinci-003";
     default_max_tokens := None;
     default_temperature := 0.7%float;
     default_top_p := None;
     default_frequency_penalty := 0.0%float;
     default_presence_penalty := 0.0%float;
     default_stop := None |}.

Definition translate_text_default_model : string := "gpt-3.5-turbo".

Definition complete_code_defaults : generation_defaults :=
  {| default_model := "code-davinci-002";
     default_max_tokens := None;
     default_temperature := 0.7%float;
     default_top_p := None;
     default_frequency_penalty := 0.0%float;
     default_presence_penalty := 0.0%float;
     default_stop := None |}.

(** [response.choices[0].text] *)
Definition choices_0_text (response : value) : result value :=
  match getattr response "choices" with
  | Ok choices =>
      match getitem choices 0 with
      | Ok choice => getattr choice "text"
      | Raise e => Raise e
      end
  | Raise e => Raise e
  end.

(** [response.choices[0].message.content] *)
Definition choices_0_message_content (response : value) : result value :=
  match getattr response "choices" with
  | Ok choices =>
      match getitem choices 0 with
      | Ok choice =>
          match getattr choice "message" with
          | Ok message => getattr message "content"
          | Raise e => Raise e
          end
      | Raise e => Raise e
      end
  | Raise e => Raise e
  end.

Definition generate_text (a : generation_args) : M (gmap string value) :=
  try_except
    (response <- OpenAIUtils.generate_text a ;;
     t <- lift (choices_0_text response) ;;
     ret {[ "text" := t ]})
    [ (openai_error_APIError globals,
       fun e => d <- fstr "OpenAI API Error: " e ;; raise (HTTPException 500 d));
      (builtin_Exception,
       fun e => d <- fstr "Error generating text: " e ;; raise (HTTPException 500 d)) ].

Definition translate_text (a : translation_args) : M (gmap string value) :=
  try_except
    (response <- OpenAIUtils.translate_text a ;;
     t <- lift (choices_0_message_content response) ;;
     ret {[ "translation" := t ]})
    [ (openai_error_APIError globals,
       fun e => d <- fstr "OpenAI API Error: " e ;; raise (HTTPException 500 d));
      (builtin_Exception,
       fun e => d <- fstr "Error translating text: " e ;; raise (HTTPException 500 d)) ].

Definition complete_code (a : generation_args) : M (gmap string value) :=
  try_except
    (response <- OpenAIUtils.complete_code a ;;
     t <- lift (choices_0_text response) ;;
     ret {[ "code" := t ]})
    [ (openai_error_APIError globals,
       fun e => d <- fstr "OpenAI API Error: " e ;; raise (HTTPException 500 d));
      (builtin_Exception,
       fun e => d <- fstr "Error completing code: " e ;; raise (HTTPException 500 d)) ].

End OpenAIService.

(* ===================================================================== *)
(** ** [src/routes/api_routes.py]: the route functions *)
(* ===================================================================== *)

Module Routes.

(** The module imports [fastapi], [typing], the service module and the
    dependency provider; it does not import [openai]. *)
Definition globals : list string :=
  ["APIRouter"; "HTTPException"; "Depends"; "JSONResponse"; "Dict"; "Optional";
   "openai_service"; "get_openai_service"; "router";
   "generate_text"; "translate_text"; "complete_code"].

(** A [JSONResponse], with the content it was built from and its status
    code. *)
Record JSONResponse : Type := {
  content : gmap string value;
  status_code : Z
}.

(** [JSONResponse(content)]: the constructor renders the body at once and
    raises what the rendering raises; the status code defaults to 200. *)
Definition json_response (c : gmap string value) : M JSONResponse :=
  fun E log =>
    match JSONResponse_render E c with
    | None => (Ok {| content := c; status_code := 200 |}, log)
    | Some e => (Raise e, log)
    end.

(** The defaults of the route signatures, bound when the request leaves a
    parameter out. *)
Definition generate_text_defaults : generation_defaults :=
  {| default_model := "text-davinci-003";
     default_max_tokens := None;
     default_temperature := 0.7%float;
     default_top_p := None;
     default_frequency_penalty := 0.0%float;
     default_presence_penalty := 0.0%float;
     default_stop := None |}.

Definition translate_text_default_model : string := "gpt-3.5-turbo".

Definition complete_code_defaults : generation_defaults :=
  {| default_model := "code-davinci-002";
     default_max_tokens := None;
     default_temperature := 0.7%float;
     default_top_p := None;
     default_frequency_penalty := 0.0%float;
     default_presence_penalty := 0.0%float;
     default_stop := None |}.

Definition generate_text (r : generation_request) : M JSONResponse :=
  let a := bind_defaults generate_text_defaults r in
  try_except
    (response <- OpenAIService.generate_text a ;;
     json_response response)
    [ (openai_error_APIError globals,
       fun e => d <- fstr "OpenAI API Error: " e ;; raise (HTTPException 500 d));
      (builtin_Exception,
       fun e => d <- fstr "Error generating text: " e ;; raise (HTTPException 500 d)) ].

Definition translate_text (r : translation_request) : M JSONResponse :=
  let a := {| text := req_text r;
              target_language := req_target_language r;
              translation_model :=
                default translate_text_default_model
                        (req_translation_model r) |} in
  try_except
    (response <- OpenAIService.translate_text a ;;
     json_response response)
    [ (openai_error_APIError globals,
       fun e => d <- fstr "OpenAI API Error: " e ;; raise (HTTPException 500 d));
      (builtin_Exception,
       fun e => d <- fstr "Error translating text: " e ;; raise (HTTPException 500 d)) ].

Definition complete_code (r : generation_request) : M JSONResponse :=
  let a := bind_defaults complete_code_defaults r in
  try_except
    (response <- OpenAIService.complete_code a ;;
     json_response response)
    [ (openai_error_APIError globals,
       fun e => d <- fstr "OpenAI API Error: " e ;; raise (HTTPException 500 d));
      (builtin_Exception,
       fun e => d <- fstr "Error completing code: " e ;; raise (HTTPException 500 d)) ].

End Routes.

(* ===================================================================== *)
(** ** [src/main.py]: the exception handlers of the application *)
(* ===================================================================== *)

(** [type(e).__name__], as it appears in the text of an [AttributeError]. *)
Definition class_name (c : exc_class) : string :=
  match c with
  | Exception => "Exception"
  | OpenAIError => "OpenAIError"
  | APIError => "APIError"
  | RateLimitError => "RateLimitError"
  | APIConnectionError => "APIConnectionError"
  | LookupError => "LookupError"
  | IndexError => "IndexError"
  | KeyError => "KeyError"
  | AttributeError => "AttributeError"
  | TypeError => "TypeError"
  | NameError => "NameError"
  | ValueError => "ValueError"
  end.

Module Main.

(** [return {"detail": exc.detail}].  Only an [HTTPException] has the
    attribute [detail]. *)
Definition http_exception_handler (request : value) (exc : exc)
  : M (gmap string value) :=
  match exc with
  | HTTPException _ detail => ret {[ "detail" := VStr detail ]}
  | Raised cls _ =>
      raise (Raised AttributeError
               ("'" +:+ class_name cls +:+ "' object has no attribute 'detail'"))
  end.

(** [return {"detail": f"An unexpected error occurred: {exc}"}]. *)
Definition general_exception_handler (request : value) (exc : exc)
  : M (gmap string value) :=
  d <- fstr "An unexpected error occurred: " exc ;;
  ret {[ "detail" := VStr d ]}.

End Main.

(* ===================================================================== *)
(** ** Environments used to run the operations on concrete inputs *)
(* ===================================================================== *)

(** [str(e)] of an [HTTPException] in frameworks whose exception defines
    [__str__] as [f"{status_code}: {detail}"]. *)
Definition str_status_detail (status_code : Z) (detail : string) : string :=
  pretty status_code +:+ ": " +:+ detail.

(** [str(e)] of an [HTTPException] in frameworks whose exception keeps the
    default [__str__] and is built from keyword arguments only. *)
Definition str_no_args (status_code : Z) (detail : string) : string := "".

(** No float inside [v] is an infinity or a NaN. *)
Fixpoint finite_floats (v : value) : bool :=
  match v with
  | VFloat f => is_finite f
  | VList l => forallb finite_floats l
  | VDict d | VObj d => map_fold (fun _ x b => finite_floats x && b) true d
  | _ => true
  end.

(** A rendering that refuses a content with a float that is not finite, as
    [json.dumps(..., allow_nan=False)] does, and accepts every other. *)
Definition render_finite (c : gmap string value) : option exc :=
  if map_fold (fun _ x b => finite_floats x && b) true c then None
  else Some (Raised ValueError "Out of range float values are not JSON compliant").

(** A provider stub with one fixed outcome for every call, as the tests'
    mocks have. *)
Definition stub (outcome : result value) (str_http : Z -> string -> string) : env :=
  {| provider := fun _ _ => outcome;
     str_HTTPException := str_http;
     JSONResponse_render := render_finite |}.

(** A provider that answers every call with the response [r]. *)
Definition returning (r : value) : env := stub (Ok r) str_status_detail.

(** A provider whose every call raises [e]. *)
Definition raising (e : exc) : env := stub (Raise e) str_status_detail.

(** A completion response with the given [choices]. *)
Definition completion_response (choices : list value) : value :=
  VObj {[ "object" := VStr "text_completion"; "choices" := VList choices ]}.

Definition text_choice (t : string) : value :=
  VObj {[ "text" := VStr t; "index" := VInt 0 ]}.

Definition message_choice (t : string) : value :=
  VObj {[ "index" := VInt 0;
          "message" := VObj {[ "role" := VStr "assistant"; "content" := VStr t ]} ]}.

(** A chat response that holds nothing but the field the service reads. *)
Definition bare_chat_response (y : string) : value :=
  VObj {[ "choices" := VList [VObj {[ "message" := VObj {[ "content" := VStr y ]} ]}] ]}.

(** The first choice of the mocked response in [tests/test_utils.py]: a
    plain [dict]. *)
Definition mock_choice : value :=
  VDict {[ "text" := VStr "This is some generated text." ]}.

(** A choice whose [text], and whose [message.content], is the float
    infinity. *)
Definition infinite_choice : value :=
  VObj {[ "text" := VFloat infinity;
          "message" := VObj {[ "content" := VFloat infinity ]} ]}.

(** A choice whose [text], and whose [message.content], is [None] (as the
    content of a chat message is when the model answers with a function
    call). *)
Definition null_choice : value :=
  VObj {[ "text" := VNone;
          "message" := VObj {[ "role" := VStr "assistant"; "content" := VNone ]} ]}.

Definition sample_args : generation_args :=
  bind_defaults OpenAIUtils.generate_text_defaults
    {| req_prompt := "Write a short sentence.";
       req_model := None; req_max_tokens := None; req_temperature := None;
       req_top_p := None; req_frequency_penalty := None;
       req_presence_penalty := None; req_stop := None |}.

Definition sample_translation : translation_args :=
  {| text := "This is a translation.";
     target_language := "fr";
     translation_model := OpenAIUtils.translate_text_default_model |}.

(** The request of the route test: only [prompt] is supplied. *)
Definition sample_request : generation_request :=
  {| req_prompt := "Write a short sentence.";
     req_model := None; req_max_tokens := None; req_temperature := None;
     req_top_p := None; req_frequency_penalty := None;
     req_presence_penalty := None; req_stop := None |}.

(* ===================================================================== *)
(** ** Vocabulary of the properties *)
(* ===================================================================== *)

(** The keyword [k] is part of the outbound call [c], whatever its value. *)
Definition transmitted (c : call) (k : string) : Prop :=
  match c with
  | Completion_create kw | ChatCompletion_create kw => is_Some (kw !! k)
  end.

(** What an adapter operation makes of the provider's outcome: a response is
    passed on; an exception becomes an [HTTPException] with status 500 whose
    detail is prefixed by the upstream marker for an [APIError] and by the
    operation's own marker [generic] otherwise. *)
Definition adapter_outcome (E : env) (generic : string) (r : result value)
  : result value :=
  match r with
  | Ok v => Ok v
  | Raise e =>
      Raise (HTTPException 500
               ((if isinstance e APIError then "OpenAI API Error: " else generic)
                +:+ str E e))
  end.

(** What a service operation makes of the outcome of its [try] body: the
    adapter's outcome [r] followed by the extraction [extract], the value
    stored under [key]; every exception becomes an [HTTPException] with
    status 500 and the operation's marker [generic]. *)
Definition service_outcome (E : env) (generic key : string)
    (extract : value -> result value) (r : result value)
  : result (gmap string value) :=
  match r with
  | Ok v =>
      match extract v with
      | Ok t => Ok {[ key := t ]}
      | Raise e => Raise (HTTPException 500 (generic +:+ str E e))
      end
  | Raise e => Raise (HTTPException 500 (generic +:+ str E e))
  end.

(** The one outbound call of [translate_text]. *)
Definition translation_call (a : translation_args) : call :=
  ChatCompletion_create
    {[ "model" := VStr (translation_model a);
       "messages" :=
         VList [ VDict {[ "role" := VStr "user";
                          "content" :=
                            VStr ("Translate this text into "
                                  +:+ target_language a +:+ ": " +:+ text a) ]} ] ]}.

(** The reading of "an unset optional parameter is omitted from the outbound
    call" for an adapter operation [op]: none of the calls it makes carries
    the keyword of a parameter whose argument is [None]. *)
Definition omits_unset_parameters (op : generation_args -> M value) : Prop :=
  forall (a : generation_args) (E : env) (c : call),
    c ∈ (op a E []).2 ->
    (max_tokens a = None -> ~ transmitted c "max_tokens") /\
    (top_p a = None -> ~ transmitted c "top_p") /\
    (stop a = None -> ~ transmitted c "stop").

(** The eight keywords of a completion call. *)
Definition completion_keywords : gset string :=
  {[ "engine"; "prompt"; "max_tokens"; "temperature"; "top_p";
     "frequency_penalty"; "presence_penalty"; "stop" ]}.

(** The arguments a translation route binds for its request. *)
Definition bind_translation (r : translation_request) : translation_args :=
  {| text := req_text r;
     target_language := req_target_language r;
     translation_model :=
       default Routes.translate_text_default_model (req_translation_model r) |}.

(** The request of the translation route test. *)
Definition sample_translation_request : translation_request :=
  {| req_text := "This is a translation.";
     req_target_language := "fr";
     req_translation_model := None |}.

(** What a route makes of the outcome [s] of its service operation: a
    mapping that renders becomes a response of status 200; a mapping that
    does not, like an exception of the service, ends in the [NameError] of
    the unbound name [openai]. *)
Definition route_outcome (E : env) (s : result (gmap string value))
  : result Routes.JSONResponse :=
  match s with
  | Ok m =>
      match JSONResponse_render E m with
      | None => Ok {| Routes.content := m; Routes.status_code := 200 |}
      | Some _ => Raise (Raised NameError "name 'openai' is not defined")
      end
  | Raise _ => Raise (Raised NameError "name 'openai' is not defined")
  end.

(** The reading of "every successful result holds exactly one
    provider-returned string": the single value of the mapping is a
    string. *)
Definition results_hold_one_string : Prop :=
  forall (E : env) (log : list call) (a : generation_args) (t : translation_args)
         (m : gmap string value),
    ((OpenAIService.generate_text a E log).1 = Ok m ->
     exists s : string, m = {[ "text" := VStr s ]}) /\
    ((OpenAIService.translate_text t E log).1 = Ok m ->
     exists s : string, m = {[ "translation" := VStr s ]}) /\
    ((OpenAIService.complete_code a E log).1 = Ok m ->
     exists s : string, m = {[ "code" := VStr s ]}).


(** The [try] body of a service operation fails with [e]: the adapter call
    raised [e], or it returned a response on which the extraction raised
    [e]. *)
Definition body_raises (adapter_result : result value)
    (extract : value -> result value) (e : exc) : Prop :=
  adapter_result = Raise e \/
  exists r, adapter_result = Ok r /\ extract r = Raise e.

(* ===================================================================== *)
(** ** Basic facts *)
(* ===================================================================== *)

Lemma isinstance_Exception (e : exc) : isinstance e Exception = true.
Proof. destruct e as [[] ?|? ?]; reflexivity. Qed.

Lemma HTTPException_not_APIError (s : Z) (d : string) :
  isinstance (HTTPException s d) APIError = false.
Proof. reflexivity. Qed.

Lemma getattr_not_APIError (v : value) (name : string) (e : exc) :
  getattr v name = Raise e -> isinstance e APIError = false.
Proof.
  destruct v; simpl; try (intros [= <-]; reflexivity).
  destruct (_ !! _); [discriminate | intros [= <-]; reflexivity].
Qed.

Lemma getitem_not_APIError (v : value) (i : Z) (e : exc) :
  getitem v i = Raise e -> isinstance e APIError = false.
Proof.
  destruct v; simpl; try (intros [= <-]; reflexivity).
  - destruct (_ ≫= _); [discriminate | intros [= <-]; reflexivity].
  - destruct (_ ≫= _); [discriminate | intros [= <-]; reflexivity].
Qed.

Lemma choices_0_text_not_APIError (r : value) (e : exc) :
  OpenAIService.choices_0_text r = Raise e -> isinstance e APIError = false.
Proof.
  unfold OpenAIService.choices_0_text.
  destruct (getattr r "choices") as [cs|e1] eqn:H1.
  - destruct (getitem cs 0) as [c|e2] eqn:H2.
    + apply getattr_not_APIError.
    + intros [= <-]. eapply getitem_not_APIError, H2.
  - intros [= <-]. eapply getattr_not_APIError, H1.
Qed.

Lemma choices_0_message_content_not_APIError (r : value) (e : exc) :
  OpenAIService.choices_0_message_content r = Raise e ->
  isinstance e APIError = false.
Proof.
  unfold OpenAIService.choices_0_message_content.
  destruct (getattr r "choices") as [cs|e1] eqn:H1.
  - destruct (getitem cs 0) as [c|e2] eqn:H2.
    + destruct (getattr c "message") as [m|e3] eqn:H3.
      * apply getattr_not_APIError.
      * intros [= <-]. eapply getattr_not_APIError, H3.
    + intros [= <-]. eapply getitem_not_APIError, H2.
  - intros [= <-]. eapply getattr_not_APIError, H1.
Qed.

(** The two-clause [try] statement that every operation of the adapter and
    of the service uses, in a module where [openai] is imported. *)
Lemma handle_two_clauses {A} (globals : list string) (generic : string)
    (e : exc) (E : env) (log : list call) :
  "openai" ∈ globals ->
  handle (A := A)
    [ (openai_error_APIError globals,
       fun e => d <- fstr "OpenAI API Error: " e ;; raise (HTTPException 500 d));
      (builtin_Exception,
       fun e => d <- fstr generic e ;; raise (HTTPException 500 d)) ] e E log
  = (Raise (HTTPException 500
              ((if isinstance e APIError then "OpenAI API Error: " else generic)
               +:+ str E e)), log).
Proof.
  intros Hin. unfold openai_error_APIError, builtin_Exception.
  rewrite bool_decide_eq_true_2 by exact Hin. simpl.
  destruct (isinstance e APIError); [reflexivity |].
  rewrite isinstance_Exception. reflexivity.
Qed.

Lemma openai_in_utils : "openai" ∈ OpenAIUtils.globals.
Proof. unfold OpenAIUtils.globals. set_solver. Qed.

Lemma openai_in_service : "openai" ∈ OpenAIService.globals.
Proof. unfold OpenAIService.globals. set_solver. Qed.

(** *** The adapter, operation by operation *)

Lemma utils_generate_text_run (a : generation_args) (E : env) (log : list call) :
  OpenAIUtils.generate_text a E log =
  (adapter_outcome E "Error generating text: "
     (provider E log (Completion_create (completion_kwargs a))),
   log ++ [Completion_create (completion_kwargs a)]).
Proof.
  unfold OpenAIUtils.generate_text, try_except, bind, await, ret.
  destruct (provider E log _) as [v|e]; [reflexivity |].
  apply handle_two_clauses, openai_in_utils.
Qed.

Lemma utils_complete_code_run (a : generation_args) (E : env) (log : list call) :
  OpenAIUtils.complete_code a E log =
  (adapter_outcome E "Error completing code: "
     (provider E log (Completion_create (completion_kwargs a))),
   log ++ [Completion_create (completion_kwargs a)]).
Proof.
  unfold OpenAIUtils.complete_code, try_except, bind, await, ret.
  destruct (provider E log _) as [v|e]; [reflexivity |].
  apply handle_two_clauses, openai_in_utils.
Qed.

Lemma utils_translate_text_run (a : translation_args) (E : env) (log : list call) :
  OpenAIUtils.translate_text a E log =
  (adapter_outcome E "Error translating text: " (provider E log (translation_call a)),
   log ++ [translation_call a]).
Proof.
  unfold OpenAIUtils.translate_text, try_except, bind, await, ret.
  fold (translation_call a).
  destruct (provider E log _) as [v|e]; [reflexivity |].
  apply handle_two_clauses, openai_in_utils.
Qed.

(** *** The service, operation by operation *)

Lemma adapter_outcome_not_APIError E generic r e :
  adapter_outcome E generic r = Raise e -> isinstance e APIError = false.
Proof. destruct r; simpl; [discriminate | intros [= <-]; reflexivity]. Qed.

Lemma service_try_run (globals : list string) (generic key : string)
    (extract : value -> result value) (adapter : M value)
    (E : env) (log : list call) :
  "openai" ∈ globals ->
  (forall e, (adapter E log).1 = Raise e -> isinstance e APIError = false) ->
  (forall v e, extract v = Raise e -> isinstance e APIError = false) ->
  try_except
    (response <- adapter ;;
     t <- lift (extract response) ;;
     ret {[ key := t ]})
    [ (openai_error_APIError globals,
       fun e => d <- fstr "OpenAI API Error: " e ;; raise (HTTPException 500 d));
      (builtin_Exception,
       fun e => d <- fstr generic e ;; raise (HTTPException 500 d)) ] E log
  = (service_outcome E generic key extract (adapter E log).1, (adapter E log).2).
Proof.
  intros Hin Hadapter Hextract.
  unfold try_except.
  assert (Hbody :
    (response <- adapter ;; t <- lift (extract response) ;; ret {[ key := t ]}) E log
    = match adapter E log with
      | (Ok v, log') =>
          (match extract v with
           | Ok t => Ok ({[ key := t ]} : gmap string value)
           | Raise e => Raise e
           end, log')
      | (Raise e, log') => (Raise e, log')
      end).
  { unfold bind, lift, ret.
    destruct (adapter E log) as [[v|e] log']; [destruct (extract v) |]; reflexivity. }
  rewrite Hbody. clear Hbody.
  destruct (adapter E log) as [[v|e] log']; simpl in Hadapter; cbv beta iota.
  - unfold service_outcome; cbn [fst snd].
    destruct (extract v) as [t|e] eqn:Hx; [reflexivity |].
    rewrite handle_two_clauses by exact Hin.
    rewrite (Hextract _ _ Hx). reflexivity.
  - rewrite handle_two_clauses by exact Hin.
    rewrite (Hadapter e eq_refl). reflexivity.
Qed.

Lemma service_generate_text_run (a : generation_args) (E : env) (log : list call) :
  OpenAIService.generate_text a E log =
  (service_outcome E "Error generating text: " "text" OpenAIService.choices_0_text
     (OpenAIUtils.generate_text a E log).1,
   log ++ [Completion_create (completion_kwargs a)]).
Proof.
  unfold OpenAIService.generate_text.
  rewrite service_try_run.
  - rewrite utils_generate_text_run. reflexivity.
  - apply openai_in_service.
  - intros e. rewrite utils_generate_text_run. apply adapter_outcome_not_APIError.
  - apply choices_0_text_not_APIError.
Qed.

Lemma service_complete_code_run (a : generation_args) (E : env) (log : list call) :
  OpenAIService.complete_code a E log =
  (service_outcome E "Error completing code: " "code" OpenAIService.choices_0_text
     (OpenAIUtils.complete_code a E log).1,
   log ++ [Completion_create (completion_kwargs a)]).
Proof.
  unfold OpenAIService.complete_code.
  rewrite service_try_run.
  - rewrite utils_complete_code_run. reflexivity.
  - apply openai_in_service.
  - intros e. rewrite utils_complete_code_run. apply adapter_outcome_not_APIError.
  - apply choices_0_text_not_APIError.
Qed.

Lemma service_translate_text_run (a : translation_args) (E : env) (log : list call) :
  OpenAIService.translate_text a E log =
  (service_outcome E "Error translating text: " "translation"
     OpenAIService.choices_0_message_content
     (OpenAIUtils.translate_text a E log).1,
   log ++ [translation_call a]).
Proof.
  unfold OpenAIService.translate_text.
  rewrite service_try_run.
  - rewrite utils_translate_text_run. reflexivity.
  - apply openai_in_service.
  - intros e. rewrite utils_translate_text_run. apply adapter_outcome_not_APIError.
  - apply choices_0_message_content_not_APIError.
Qed.

(** *** Detail strings *)

Lemma prefix_append (s t : string) : String.prefix s (s +:+ t) = true.
Proof.
  induction s as [|c s IH]; simpl.
  - destruct t; reflexivity.
  - destruct (Ascii.ascii_dec c c); [exact IH | congruence].
Qed.


Lemma service_outcome_raise E generic key extract r e :
  body_raises r extract e ->
  service_outcome E generic key extract r
  = Raise (HTTPException 500 (generic +:+ str E e)).
Proof.
  intros [-> | (v & -> & Hx)]; simpl; [reflexivity |].
  rewrite Hx. reflexivity.
Qed.

Lemma service_outcome_ok E generic key extract r m :
  service_outcome E generic key extract r = Ok m ->
  exists v t, r = Ok v /\ extract v = Ok t /\ m = {[ key := t ]}.
Proof.
  destruct r as [v|e]; simpl; [| discriminate].
  destruct (extract v) as [t|e] eqn:Hx; [| discriminate].
  intros [= <-]. eauto.
Qed.

Lemma getattr_raises_builtin v name e :
  getattr v name = Raise e -> exists c t, e = Raised c t.
Proof.
  destruct v; simpl; try (intros [= <-]; eauto).
  destruct (_ !! _); [discriminate | intros [= <-]; eauto].
Qed.

Lemma getitem_raises_builtin v i e :
  getitem v i = Raise e -> exists c t, e = Raised c t.
Proof.
  destruct v; simpl; try (intros [= <-]; eauto).
  - destruct (_ ≫= _); [discriminate | intros [= <-]; eauto].
  - destruct (_ ≫= _); [discriminate | intros [= <-]; eauto].
Qed.

Lemma choices_0_message_content_raises_builtin r e :
  OpenAIService.choices_0_message_content r = Raise e -> exists c t, e = Raised c t.
Proof.
  unfold OpenAIService.choices_0_message_content.
  destruct (getattr r "choices") as [cs|e1] eqn:H1.
  - destruct (getitem cs 0) as [c|e2] eqn:H2.
    + destruct (getattr c "message") as [m|e3] eqn:H3.
      * apply getattr_raises_builtin.
      * intros [= <-]. eapply getattr_raises_builtin, H3.
    + intros [= <-]. eapply getitem_raises_builtin, H2.
  - intros [= <-]. eapply getattr_raises_builtin, H1.
Qed.

(* ===================================================================== *)
(** ** Successful results *)
(* ===================================================================== *)

(** C4: for every input of [generate_text], when the provider adapter returns
    a response whose [choices[0].text] is [X], the service returns exactly
    the mapping [{"text": X}], with [X] as it came; on the same response
    [complete_code] returns exactly [{"code": X}].  ([X] is any value, a
    string in particular.) *)
Theorem C4_text_and_code_returned_unmodified
    (E : env) (log : list call) (a : generation_args)
    (r choices choice X : value) :
  provider E log (Completion_create (completion_kwargs a)) = Ok r ->
  getattr r "choices" = Ok choices ->
  getitem choices 0 = Ok choice ->
  getattr choice "text" = Ok X ->
  (OpenAIService.generate_text a E log).1 = Ok {[ "text" := X ]} /\
  (OpenAIService.complete_code a E log).1 = Ok {[ "code" := X ]}.
Proof.
  intros Hp Hcs Hc Ht.
  assert (Hx : OpenAIService.choices_0_text r = Ok X).
  { unfold OpenAIService.choices_0_text. by rewrite Hcs, Hc. }
  rewrite service_generate_text_run, service_complete_code_run.
  rewrite utils_generate_text_run, utils_complete_code_run, Hp.
  simpl. rewrite Hx. split; reflexivity.
Qed.

Lemma C4_witness :
  (OpenAIService.generate_text sample_args
     (returning (completion_response [text_choice "X"])) []).1
  = Ok {[ "text" := VStr "X" ]} /\
  (OpenAIService.complete_code sample_args
     (returning (completion_response [text_choice "X"])) []).1
  = Ok {[ "code" := VStr "X" ]}.
Proof.
  apply (C4_text_and_code_returned_unmodified
           (returning (completion_response [text_choice "X"])) [] sample_args
           (completion_response [text_choice "X"])
           (VList [text_choice "X"]) (text_choice "X") (VStr "X"));
    reflexivity.
Defined.

(** C5: for every input of [translate_text], when the provider adapter
    returns a response whose [choices[0].message.content] is [Y], the service
    returns exactly the mapping [{"translation": Y}]; and the outcome of the
    service is the same for any two responses on which the expression
    [choices[0].message.content] evaluates alike, whatever else they hold:
    no other field is read. *)
Theorem C5_translation_returned_from_one_field
    (E : env) (log : list call) (a : translation_args) (r : value) :
  provider E log (translation_call a) = Ok r ->
  (forall choices choice message Y,
      getattr r "choices" = Ok choices ->
      getitem choices 0 = Ok choice ->
      getattr choice "message" = Ok message ->
      getattr message "content" = Ok Y ->
      (OpenAIService.translate_text a E log).1 = Ok {[ "translation" := Y ]}) /\
  (forall E' r',
      provider E' log (translation_call a) = Ok r' ->
      OpenAIService.choices_0_message_content r'
      = OpenAIService.choices_0_message_content r ->
      OpenAIService.translate_text a E' log = OpenAIService.translate_text a E log).
Proof.
  intros Hp. split.
  - intros choices choice message Y Hcs Hc Hm Hy.
    rewrite service_translate_text_run, utils_translate_text_run, Hp. simpl.
    unfold OpenAIService.choices_0_message_content.
    by rewrite Hcs, Hc, Hm, Hy.
  - intros E' r' Hp' Hsame.
    rewrite !service_translate_text_run, !utils_translate_text_run, Hp, Hp'.
    simpl. rewrite Hsame.
    destruct (OpenAIService.choices_0_message_content r) as [y|e] eqn:Hx;
      [reflexivity |].
    destruct (choices_0_message_content_raises_builtin _ _ Hx) as (c & t & ->).
    reflexivity.
Qed.

Lemma C5_witness :
  (OpenAIService.translate_text sample_translation (returning (bare_chat_response "Y")) []).1
  = Ok {[ "translation" := VStr "Y" ]} /\
  OpenAIService.translate_text sample_translation
    (stub (Ok (completion_response [message_choice "Y"])) str_no_args) []
  = OpenAIService.translate_text sample_translation
      (returning (bare_chat_response "Y")) [].
Proof.
  destruct (C5_translation_returned_from_one_field
              (returning (bare_chat_response "Y")) [] sample_translation
              (bare_chat_response "Y") eq_refl) as [Hy Hsame].
  split.
  - apply (Hy (VList [VObj {[ "message" := VObj {[ "content" := VStr "Y" ]} ]}])
              (VObj {[ "message" := VObj {[ "content" := VStr "Y" ]} ]})
              (VObj {[ "content" := VStr "Y" ]}) (VStr "Y")); reflexivity.
  - apply (Hsame (stub (Ok (completion_response [message_choice "Y"])) str_no_args)
                 (completion_response [message_choice "Y"])); reflexivity.
Defined.

(** C9, as stated, fails on the "string": the service hands on whatever
    the response holds at the field.  On a response whose [text] and
    [message.content] are [None] the operations succeed with
    [{"text": None}], [{"translation": None}] and [{"code": None}]. *)
Lemma C9_counterexample :
  (OpenAIService.generate_text sample_args
     (returning (completion_response [null_choice])) []).1
  = Ok {[ "text" := VNone ]} /\
  (OpenAIService.translate_text sample_translation
     (returning (completion_response [null_choice])) []).1
  = Ok {[ "translation" := VNone ]} /\
  (OpenAIService.complete_code sample_args
     (returning (completion_response [null_choice])) []).1
  = Ok {[ "code" := VNone ]} /\
  ~ results_hold_one_string.
Proof.
  split; [reflexivity |]. split; [reflexivity |]. split; [reflexivity |].
  intros H.
  destruct (H (returning (completion_response [null_choice])) []
              sample_args sample_translation {[ "text" := VNone ]}) as [Hg _].
  destruct Hg as [s Hs]; [reflexivity |].
  assert (Hl : ({[ "text" := VNone ]} : gmap string value) !! "text"
               = Some (VStr s)).
  { rewrite Hs. apply lookup_singleton_eq. }
  rewrite lookup_singleton_eq in Hl. discriminate.
Qed.

(** C9, amended: every successful result of a service operation is a mapping
    with exactly one key, ["text"] for [generate_text], ["translation"] for
    [translate_text], ["code"] for [complete_code], and the value under that
    key is the one value the provider's response holds at [choices[0].text]
    (at [choices[0].message.content] for a translation), as it came: a
    string when the provider put a string there, and nothing else. *)
Theorem C9_results_are_single_key_mappings
    (E : env) (log : list call) (a : generation_args) (t : translation_args)
    (m : gmap string value) :
  ((OpenAIService.generate_text a E log).1 = Ok m ->
   exists r v,
     provider E log (Completion_create (completion_kwargs a)) = Ok r /\
     OpenAIService.choices_0_text r = Ok v /\
     m = {[ "text" := v ]} /\ dom m = {[ "text" ]}) /\
  ((OpenAIService.translate_text t E log).1 = Ok m ->
   exists r v,
     provider E log (translation_call t) = Ok r /\
     OpenAIService.choices_0_message_content r = Ok v /\
     m = {[ "translation" := v ]} /\ dom m = {[ "translation" ]}) /\
  ((OpenAIService.complete_code a E log).1 = Ok m ->
   exists r v,
     provider E log (Completion_create (completion_kwargs a)) = Ok r /\
     OpenAIService.choices_0_text r = Ok v /\
     m = {[ "code" := v ]} /\ dom m = {[ "code" ]}).
Proof.
  rewrite service_generate_text_run, service_translate_text_run,
    service_complete_code_run.
  rewrite utils_generate_text_run, utils_translate_text_run,
    utils_complete_code_run.
  cbn [fst snd].
  repeat split; intros H;
    apply service_outcome_ok in H as (r & v & Hr & Hv & ->);
    (destruct (provider E log _) as [r'|e]; simpl in Hr; [| discriminate]);
    injection Hr as ->;
    exists r, v; (split; [reflexivity |]); (split; [assumption |]);
    (split; [reflexivity |]); apply dom_singleton_L.
Qed.

Lemma C9_witness :
  (exists r v,
     provider (returning (completion_response [text_choice "X"])) []
       (Completion_create (completion_kwargs sample_args)) = Ok r /\
     OpenAIService.choices_0_text r = Ok v /\
     ({[ "text" := VStr "X" ]} : gmap string value) = {[ "text" := v ]} /\
     dom ({[ "text" := VStr "X" ]} : gmap string value) = {[ "text" ]}) /\
  (exists r v,
     provider (returning (bare_chat_response "Y")) []
       (translation_call sample_translation) = Ok r /\
     OpenAIService.choices_0_message_content r = Ok v /\
     ({[ "translation" := VStr "Y" ]} : gmap string value) = {[ "translation" := v ]} /\
     dom ({[ "translation" := VStr "Y" ]} : gmap string value) = {[ "translation" ]}) /\
  (exists r v,
     provider (returning (completion_response [text_choice "X"])) []
       (Completion_create (completion_kwargs sample_args)) = Ok r /\
     OpenAIService.choices_0_text r = Ok v /\
     ({[ "code" := VStr "X" ]} : gmap string value) = {[ "code" := v ]} /\
     dom ({[ "code" := VStr "X" ]} : gmap string value) = {[ "code" ]}).
Proof.
  split; [| split].
  - apply (proj1 (C9_results_are_single_key_mappings
                    (returning (completion_response [text_choice "X"])) []
                    sample_args sample_translation {[ "text" := VStr "X" ]})).
    reflexivity.
  - apply (proj1 (proj2 (C9_results_are_single_key_mappings
                           (returning (bare_chat_response "Y")) []
                           sample_args sample_translation
                           {[ "translation" := VStr "Y" ]}))).
    reflexivity.
  - apply (proj2 (proj2 (C9_results_are_single_key_mappings
                           (returning (completion_response [text_choice "X"])) []
                           sample_args sample_translation {[ "code" := VStr "X" ]}))).
    reflexivity.
Defined.

(* ===================================================================== *)
(** ** Outbound calls *)
(* ===================================================================== *)

(** C6: for every [text] and [target_language], the adapter's
    [translate_text] makes one chat call whose [messages] list holds exactly
    one message, of role ["user"], whose content is the string
    ["Translate this text into {target_language}: {text}"] with both
    arguments inserted as they are. *)
Theorem C6_translate_sends_one_user_message
    (E : env) (log : list call) (a : translation_args) :
  (OpenAIUtils.translate_text a E log).2 =
  log ++
  [ ChatCompletion_create
      {[ "model" := VStr (translation_model a);
         "messages" :=
           VList [ VDict {[ "role" := VStr "user";
                            "content" :=
                              VStr ("Translate this text into "
                                    +:+ target_language a +:+ ": " +:+ text a) ]} ] ]} ].
Proof. rewrite utils_translate_text_run. reflexivity. Qed.

Lemma completion_kwargs_dom (a : generation_args) :
  dom (completion_kwargs a) = completion_keywords.
Proof.
  unfold completion_kwargs, completion_keywords.
  rewrite !dom_insert_L, dom_singleton_L. set_solver.
Qed.

Lemma completion_kwargs_optional (a : generation_args) :
  completion_kwargs a !! "max_tokens" = Some (of_optional VInt (max_tokens a)) /\
  completion_kwargs a !! "top_p" = Some (of_optional VFloat (top_p a)) /\
  completion_kwargs a !! "stop" = Some (of_optional VStr (stop a)).
Proof. repeat split; reflexivity. Qed.

(** The [try] statement of a route: [openai] is unbound in the module, so no
    exception, of the service or of the rendering, gets past the evaluation
    of the first clause. *)
Lemma route_try_run (generic : string) (service : M (gmap string value))
    (E : env) (log : list call) :
  try_except
    (response <- service ;;
     Routes.json_response response)
    [ (openai_error_APIError Routes.globals,
       fun e => d <- fstr "OpenAI API Error: " e ;; raise (HTTPException 500 d));
      (builtin_Exception,
       fun e => d <- fstr generic e ;; raise (HTTPException 500 d)) ] E log
  = (route_outcome E (service E log).1, (service E log).2).
Proof.
  unfold try_except.
  assert (Hbody :
    (response <- service ;; Routes.json_response response) E log
    = match service E log with
      | (Ok m, log') =>
          (match JSONResponse_render E m with
           | None => Ok {| Routes.content := m; Routes.status_code := 200 |}
           | Some e => Raise e
           end, log')
      | (Raise e, log') => (Raise e, log')
      end).
  { unfold bind, Routes.json_response.
    destruct (service E log) as [[m|e] log']; [| reflexivity].
    destruct (JSONResponse_render E m); reflexivity. }
  rewrite Hbody. clear Hbody.
  destruct (service E log) as [[m|e] log']; [| reflexivity].
  cbn [fst snd route_outcome].
  destruct (JSONResponse_render E m); reflexivity.
Qed.

Lemma routes_generate_text_run (r : generation_request) (E : env) (log : list call) :
  Routes.generate_text r E log =
  (route_outcome E
     (OpenAIService.generate_text
        (bind_defaults Routes.generate_text_defaults r) E log).1,
   log ++ [Completion_create
             (completion_kwargs (bind_defaults Routes.generate_text_defaults r))]).
Proof.
  unfold Routes.generate_text. cbv zeta. rewrite route_try_run.
  rewrite service_generate_text_run. reflexivity.
Qed.

Lemma routes_complete_code_run (r : generation_request) (E : env) (log : list call) :
  Routes.complete_code r E log =
  (route_outcome E
     (OpenAIService.complete_code
        (bind_defaults Routes.complete_code_defaults r) E log).1,
   log ++ [Completion_create
             (completion_kwargs (bind_defaults Routes.complete_code_defaults r))]).
Proof.
  unfold Routes.complete_code. cbv zeta. rewrite route_try_run.
  rewrite service_complete_code_run. reflexivity.
Qed.

Lemma routes_translate_text_run (r : translation_request) (E : env) (log : list call) :
  Routes.translate_text r E log =
  (route_outcome E (OpenAIService.translate_text (bind_translation r) E log).1,
   log ++ [translation_call (bind_translation r)]).
Proof.
  unfold Routes.translate_text. cbv zeta. fold (bind_translation r).
  rewrite route_try_run. rewrite service_translate_text_run. reflexivity.
Qed.

(** The routes add no call of their own: their log is the service's. *)
Lemma routes_generate_text_log (r : generation_request) (E : env) (log : list call) :
  (Routes.generate_text r E log).2 =
  log ++ [Completion_create
            (completion_kwargs (bind_defaults Routes.generate_text_defaults r))].
Proof. rewrite routes_generate_text_run. reflexivity. Qed.

Lemma routes_complete_code_log (r : generation_request) (E : env) (log : list call) :
  (Routes.complete_code r E log).2 =
  log ++ [Completion_create
            (completion_kwargs (bind_defaults Routes.complete_code_defaults r))].
Proof. rewrite routes_complete_code_run. reflexivity. Qed.

(** C2, as stated, fails: called with nothing but a prompt, both adapter
    operations pass [max_tokens=None], [top_p=None] and [stop=None] to the
    provider call. *)
Lemma C2_counterexample :
  ~ omits_unset_parameters OpenAIUtils.generate_text /\
  ~ omits_unset_parameters OpenAIUtils.complete_code.
Proof.
  split; intros H;
    destruct (H sample_args (returning VNone)
                (Completion_create (completion_kwargs sample_args))) as (Hm & _);
    try (apply Hm; [reflexivity | exists VNone; reflexivity]).
  - rewrite utils_generate_text_run. simpl. set_solver.
  - rewrite utils_complete_code_run. simpl. set_solver.
Qed.

(** C2, amended: [generate_text] and [complete_code] always pass all eight
    keywords to the provider call; an optional parameter ([max_tokens],
    [top_p], [stop]) reaches it as the caller gave it, [None] when the caller
    left it unset, and so it does through route, service and adapter. *)
Theorem C2_unset_parameters_sent_as_None
    (E : env) (log : list call) (a : generation_args) (r : generation_request) :
  let sent (kw : gmap string value) (mt : option Z) (tp : option float)
           (st : option string) :=
    dom kw = completion_keywords /\
    kw !! "max_tokens" = Some (of_optional VInt mt) /\
    kw !! "top_p" = Some (of_optional VFloat tp) /\
    kw !! "stop" = Some (of_optional VStr st) in
  (exists kw,
     (OpenAIUtils.generate_text a E log).2 = log ++ [Completion_create kw] /\
     (OpenAIUtils.complete_code a E log).2 = log ++ [Completion_create kw] /\
     sent kw (max_tokens a) (top_p a) (stop a)) /\
  (exists kw,
     (Routes.generate_text r E log).2 = log ++ [Completion_create kw] /\
     sent kw (req_max_tokens r) (req_top_p r) (req_stop r)) /\
  (exists kw,
     (Routes.complete_code r E log).2 = log ++ [Completion_create kw] /\
     sent kw (req_max_tokens r) (req_top_p r) (req_stop r)).
Proof.
  intros sent. subst sent. cbv beta.
  split; [| split].
  - exists (completion_kwargs a).
    rewrite utils_generate_text_run, utils_complete_code_run.
    split; [reflexivity |]. split; [reflexivity |].
    split; [apply completion_kwargs_dom | apply completion_kwargs_optional].
  - eexists. rewrite routes_generate_text_log. split; [reflexivity |].
    split; [apply completion_kwargs_dom |].
    destruct r as [? ? [] ? [] ? ? []]; repeat split; reflexivity.
  - eexists. rewrite routes_complete_code_log. split; [reflexivity |].
    split; [apply completion_kwargs_dom |].
    destruct r as [? ? [] ? [] ? ? []]; repeat split; reflexivity.
Qed.

(** C7: on the same eight arguments the adapter's [complete_code] and
    [generate_text] make the same single provider call and end alike: the
    same response when the call returns, an [HTTPException] of status 500
    when it raises, with the same detail for an [APIError] and details that
    differ only in the operation's own prefix otherwise.  Their signatures
    differ in the default model only. *)
Theorem C7_complete_code_is_generate_text
    (E : env) (log : list call) (a : generation_args) :
  (OpenAIUtils.complete_code a E log).2 = (OpenAIUtils.generate_text a E log).2 /\
  (exists c, (OpenAIUtils.generate_text a E log).2 = log ++ [c]) /\
  match (OpenAIUtils.generate_text a E log).1,
        (OpenAIUtils.complete_code a E log).1 with
  | Ok r1, Ok r2 => r1 = r2
  | Raise (HTTPException s1 d1), Raise (HTTPException s2 d2) =>
      s1 = 500 /\ s2 = 500 /\
      ((exists t, d1 = "OpenAI API Error: " +:+ t /\ d2 = "OpenAI API Error: " +:+ t) \/
       (exists t, d1 = "Error generating text: " +:+ t /\
                  d2 = "Error completing code: " +:+ t))
  | _, _ => False
  end /\
  default_model OpenAIUtils.generate_text_defaults = "text-davinci-003" /\
  default_model OpenAIUtils.complete_code_defaults = "code-davinci-002" /\
  default_max_tokens OpenAIUtils.complete_code_defaults
  = default_max_tokens OpenAIUtils.generate_text_defaults /\
  default_temperature OpenAIUtils.complete_code_defaults
  = default_temperature OpenAIUtils.generate_text_defaults /\
  default_top_p OpenAIUtils.complete_code_defaults
  = default_top_p OpenAIUtils.generate_text_defaults /\
  default_frequency_penalty OpenAIUtils.complete_code_defaults
  = default_frequency_penalty OpenAIUtils.generate_text_defaults /\
  default_presence_penalty OpenAIUtils.complete_code_defaults
  = default_presence_penalty OpenAIUtils.generate_text_defaults /\
  default_stop OpenAIUtils.complete_code_defaults
  = default_stop OpenAIUtils.generate_text_defaults.
Proof.
  rewrite utils_generate_text_run, utils_complete_code_run. cbn [fst snd].
  split; [reflexivity |]. split; [eauto |].
  split; [| repeat split; reflexivity].
  destruct (provider E log _) as [r|e]; simpl; [reflexivity |].
  split; [reflexivity |]. split; [reflexivity |].
  destruct (isinstance e APIError); [left | right]; eauto.
Qed.

(* ===================================================================== *)
(** ** Failures *)
(* ===================================================================== *)

(** C3: when the provider's response has an empty [choices] list, each
    service operation raises an [HTTPException] of status 500 whose detail is
    the operation's generic prefix followed by the text of the index error;
    the [IndexError] itself does not leave the operation. *)
Theorem C3_empty_choices_is_internal_error
    (E : env) (log : list call) (a : generation_args) (t : translation_args)
    (r : value) :
  getattr r "choices" = Ok (VList []) ->
  (provider E log (Completion_create (completion_kwargs a)) = Ok r ->
   (OpenAIService.generate_text a E log).1
   = Raise (HTTPException 500 "Error generating text: list index out of range") /\
   (OpenAIService.complete_code a E log).1
   = Raise (HTTPException 500 "Error completing code: list index out of range")) /\
  (provider E log (translation_call t) = Ok r ->
   (OpenAIService.translate_text t E log).1
   = Raise (HTTPException 500 "Error translating text: list index out of range")).
Proof.
  intros Hcs.
  assert (Ht : OpenAIService.choices_0_text r
               = Raise (Raised IndexError "list index out of range")).
  { unfold OpenAIService.choices_0_text. rewrite Hcs. reflexivity. }
  assert (Hm : OpenAIService.choices_0_message_content r
               = Raise (Raised IndexError "list index out of range")).
  { unfold OpenAIService.choices_0_message_content. rewrite Hcs. reflexivity. }
  split.
  - intros Hp.
    rewrite service_generate_text_run, service_complete_code_run.
    rewrite utils_generate_text_run, utils_complete_code_run, Hp.
    simpl. rewrite Ht. split; reflexivity.
  - intros Hp.
    rewrite service_translate_text_run, utils_translate_text_run, Hp.
    simpl. rewrite Hm. reflexivity.
Qed.

Lemma C3_witness :
  ((OpenAIService.generate_text sample_args (returning (completion_response [])) []).1
   = Raise (HTTPException 500 "Error generating text: list index out of range") /\
   (OpenAIService.complete_code sample_args (returning (completion_response [])) []).1
   = Raise (HTTPException 500 "Error completing code: list index out of range")) /\
  (OpenAIService.translate_text sample_translation
     (returning (completion_response [])) []).1
  = Raise (HTTPException 500 "Error translating text: list index out of range").
Proof.
  destruct (C3_empty_choices_is_internal_error
              (returning (completion_response [])) [] sample_args sample_translation
              (completion_response []) eq_refl) as [Hg Ht].
  split; [apply Hg | apply Ht]; reflexivity.
Defined.



Lemma adapter_outcome_raises_HTTPException E generic p e :
  adapter_outcome E generic p = Raise e -> exists d, e = HTTPException 500 d.
Proof. destruct p as [v|e0]; simpl; [discriminate | intros [= <-]; eauto]. Qed.

Lemma body_raises_not_APIError E generic p extract e :
  (forall v e, extract v = Raise e -> isinstance e APIError = false) ->
  body_raises (adapter_outcome E generic p) extract e ->
  isinstance e APIError = false.
Proof.
  intros Hx [H | (r & _ & H)].
  - eapply adapter_outcome_not_APIError, H.
  - eapply Hx, H.
Qed.

(** C10: no exception that reaches the [try] statement of a service
    operation is an [APIError], because the adapter has turned every
    exception of the provider call into an [HTTPException] and the extraction
    raises built-in errors only; the clause [except openai.error.APIError] of
    the service is never taken, the error of the service comes from its
    [except Exception] clause, and its detail begins with the operation's
    generic prefix, never with ["OpenAI API Error:"]. *)
Theorem C10_service_APIError_clause_is_dead
    (E : env) (log : list call) (a : generation_args) (t : translation_args)
    (e : exc) :
  (body_raises (OpenAIUtils.generate_text a E log).1 OpenAIService.choices_0_text e ->
   isinstance e APIError = false /\
   ((OpenAIUtils.generate_text a E log).1 = Raise e ->
    exists d, e = HTTPException 500 d) /\
   exists detail,
     (OpenAIService.generate_text a E log).1 = Raise (HTTPException 500 detail) /\
     String.prefix "Error generating text: " detail = true /\
     String.prefix "OpenAI API Error:" detail = false) /\
  (body_raises (OpenAIUtils.translate_text t E log).1
     OpenAIService.choices_0_message_content e ->
   isinstance e APIError = false /\
   ((OpenAIUtils.translate_text t E log).1 = Raise e ->
    exists d, e = HTTPException 500 d) /\
   exists detail,
     (OpenAIService.translate_text t E log).1 = Raise (HTTPException 500 detail) /\
     String.prefix "Error translating text: " detail = true /\
     String.prefix "OpenAI API Error:" detail = false) /\
  (body_raises (OpenAIUtils.complete_code a E log).1 OpenAIService.choices_0_text e ->
   isinstance e APIError = false /\
   ((OpenAIUtils.complete_code a E log).1 = Raise e ->
    exists d, e = HTTPException 500 d) /\
   exists detail,
     (OpenAIService.complete_code a E log).1 = Raise (HTTPException 500 detail) /\
     String.prefix "Error completing code: " detail = true /\
     String.prefix "OpenAI API Error:" detail = false).
Proof.
  rewrite service_generate_text_run, service_translate_text_run,
    service_complete_code_run.
  rewrite utils_generate_text_run, utils_translate_text_run,
    utils_complete_code_run.
  cbn [fst snd].
  pose proof choices_0_text_not_APIError as Htext.
  pose proof choices_0_message_content_not_APIError as Hcontent.
  split; [| split]; intros Hbody.
  - split; [refine (body_raises_not_APIError _ _ _ _ _ _ Hbody); assumption |].
    split; [apply adapter_outcome_raises_HTTPException |].
    eexists. rewrite (service_outcome_raise _ _ _ _ _ _ Hbody).
    split; [reflexivity |]. split; [apply prefix_append | reflexivity].
  - split; [refine (body_raises_not_APIError _ _ _ _ _ _ Hbody); assumption |].
    split; [apply adapter_outcome_raises_HTTPException |].
    eexists. rewrite (service_outcome_raise _ _ _ _ _ _ Hbody).
    split; [reflexivity |]. split; [apply prefix_append | reflexivity].
  - split; [refine (body_raises_not_APIError _ _ _ _ _ _ Hbody); assumption |].
    split; [apply adapter_outcome_raises_HTTPException |].
    eexists. rewrite (service_outcome_raise _ _ _ _ _ _ Hbody).
    split; [reflexivity |]. split; [apply prefix_append | reflexivity].
Qed.

Lemma C10_witness :
  isinstance (HTTPException 500 "OpenAI API Error: quota exceeded") APIError = false /\
  (exists detail,
     (OpenAIService.generate_text sample_args
        (raising (Raised APIError "quota exceeded")) []).1
     = Raise (HTTPException 500 detail) /\
     String.prefix "Error generating text: " detail = true /\
     String.prefix "OpenAI API Error:" detail = false) /\
  (exists detail,
     (OpenAIService.translate_text sample_translation
        (raising (Raised APIError "quota exceeded")) []).1
     = Raise (HTTPException 500 detail) /\
     String.prefix "Error translating text: " detail = true /\
     String.prefix "OpenAI API Error:" detail = false) /\
  (exists detail,
     (OpenAIService.complete_code sample_args
        (raising (Raised APIError "quota exceeded")) []).1
     = Raise (HTTPException 500 detail) /\
     String.prefix "Error completing code: " detail = true /\
     String.prefix "OpenAI API Error:" detail = false).
Proof.
  destruct (C10_service_APIError_clause_is_dead
              (raising (Raised APIError "quota exceeded")) []
              sample_args sample_translation
              (HTTPException 500 "OpenAI API Error: quota exceeded"))
    as (Hg & Ht & Hc).
  destruct Hg as (Hno & _ & Hg); [left; reflexivity |].
  destruct Ht as (_ & _ & Ht); [left; reflexivity |].
  destruct Hc as (_ & _ & Hc); [left; reflexivity |].
  split; [exact Hno |]. split; [exact Hg |]. split; [exact Ht | exact Hc].
Defined.

(** C1, on the code: when the provider call raises an [APIError] of text
    [msg], the adapter raises [HTTPException(500, "OpenAI API Error: " + msg)],
    which is not an [APIError]; each service operation catches it in its
    [except Exception] clause and raises an [HTTPException] of status 500
    whose detail is the operation's generic prefix followed by [str()] of the
    adapter's exception.  The detail does not begin with the upstream
    marker ["OpenAI API Error"]. *)
Theorem C1_api_error_gets_generic_prefix
    (str_http : Z -> string -> string) (log : list call)
    (a : generation_args) (t : translation_args) (msg : string) :
  let E := stub (Raise (Raised APIError msg)) str_http in
  let upstream := str_http 500 ("OpenAI API Error: " +:+ msg) in
  (OpenAIUtils.generate_text a E log).1
  = Raise (HTTPException 500 ("OpenAI API Error: " +:+ msg)) /\
  (OpenAIService.generate_text a E log).1
  = Raise (HTTPException 500 ("Error generating text: " +:+ upstream)) /\
  (OpenAIService.translate_text t E log).1
  = Raise (HTTPException 500 ("Error translating text: " +:+ upstream)) /\
  (OpenAIService.complete_code a E log).1
  = Raise (HTTPException 500 ("Error completing code: " +:+ upstream)) /\
  String.prefix "OpenAI API Error" ("Error generating text: " +:+ upstream) = false /\
  String.prefix "OpenAI API Error" ("Error translating text: " +:+ upstream) = false /\
  String.prefix "OpenAI API Error" ("Error completing code: " +:+ upstream) = false.
Proof.
  intros E upstream.
  rewrite service_generate_text_run, service_translate_text_run,
    service_complete_code_run.
  rewrite utils_generate_text_run, utils_translate_text_run,
    utils_complete_code_run.
  repeat split; reflexivity.
Qed.

(** The same failing input under the two behaviours of [str()] on an
    [HTTPException]: the upstream text survives behind the generic prefix in
    one, and is lost altogether in the other. *)
Example C1_quota_exceeded_with_str :
  (OpenAIService.generate_text sample_args
     (stub (Raise (Raised APIError "quota exceeded")) str_status_detail) []).1
  = Raise (HTTPException 500
             "Error generating text: 500: OpenAI API Error: quota exceeded").
Proof. reflexivity. Qed.

Example C1_quota_exceeded_without_str :
  (OpenAIService.generate_text sample_args
     (stub (Raise (Raised APIError "quota exceeded")) str_no_args) []).1
  = Raise (HTTPException 500 "Error generating text: ").
Proof. reflexivity. Qed.

(* ===================================================================== *)
(** ** The routes *)
(* ===================================================================== *)

(** The scenario of [tests/test_routes.py]. *)
Example routes_generate_text_scenario :
  (Routes.generate_text sample_request
     (returning (completion_response [text_choice "This is some generated text."]))
     []).1
  = Ok {| Routes.content := {[ "text" := VStr "This is some generated text." ]};
          Routes.status_code := 200 |}.
Proof. reflexivity. Qed.

(** X1: end to end on a response that holds the field.  When the provider's
    response holds [X] at [choices[0].text] (at [choices[0].message.content]
    for a translation), the route builds a [JSONResponse] from the mapping
    [{"text": X}], [{"translation": X}] or [{"code": X}]: if that mapping
    renders, the route returns the response, of status 200 and with exactly
    that content; if rendering raises (a float that is not finite, say), the
    route raises the [NameError] of the unbound name [openai]. *)
Theorem X1_routes_answer_200_with_the_extracted_field
    (E : env) (log : list call) (r : generation_request)
    (tr : translation_request) (resp X : value) :
  (provider E log
     (Completion_create
        (completion_kwargs (bind_defaults Routes.generate_text_defaults r))) = Ok resp ->
   OpenAIService.choices_0_text resp = Ok X ->
   (JSONResponse_render E {[ "text" := X ]} = None ->
    (Routes.generate_text r E log).1
    = Ok {| Routes.content := {[ "text" := X ]}; Routes.status_code := 200 |}) /\
   (forall e, JSONResponse_render E {[ "text" := X ]} = Some e ->
    (Routes.generate_text r E log).1
    = Raise (Raised NameError "name 'openai' is not defined"))) /\
  (provider E log (translation_call (bind_translation tr)) = Ok resp ->
   OpenAIService.choices_0_message_content resp = Ok X ->
   (JSONResponse_render E {[ "translation" := X ]} = None ->
    (Routes.translate_text tr E log).1
    = Ok {| Routes.content := {[ "translation" := X ]}; Routes.status_code := 200 |}) /\
   (forall e, JSONResponse_render E {[ "translation" := X ]} = Some e ->
    (Routes.translate_text tr E log).1
    = Raise (Raised NameError "name 'openai' is not defined"))) /\
  (provider E log
     (Completion_create
        (completion_kwargs (bind_defaults Routes.complete_code_defaults r))) = Ok resp ->
   OpenAIService.choices_0_text resp = Ok X ->
   (JSONResponse_render E {[ "code" := X ]} = None ->
    (Routes.complete_code r E log).1
    = Ok {| Routes.content := {[ "code" := X ]}; Routes.status_code := 200 |}) /\
   (forall e, JSONResponse_render E {[ "code" := X ]} = Some e ->
    (Routes.complete_code r E log).1
    = Raise (Raised NameError "name 'openai' is not defined"))).
Proof.
  split; [| split]; intros Hp Hx.
  - rewrite routes_generate_text_run, service_generate_text_run,
      utils_generate_text_run, Hp.
    cbn [fst adapter_outcome service_outcome]. rewrite Hx.
    cbn [route_outcome].
    split; [intros -> | intros e ->]; reflexivity.
  - rewrite routes_translate_text_run, service_translate_text_run,
      utils_translate_text_run, Hp.
    cbn [fst adapter_outcome service_outcome]. rewrite Hx.
    cbn [route_outcome].
    split; [intros -> | intros e ->]; reflexivity.
  - rewrite routes_complete_code_run, service_complete_code_run,
      utils_complete_code_run, Hp.
    cbn [fst adapter_outcome service_outcome]. rewrite Hx.
    cbn [route_outcome].
    split; [intros -> | intros e ->]; reflexivity.
Qed.

Lemma X1_witness :
  ((Routes.generate_text sample_request
      (returning (completion_response [text_choice "X"])) []).1
   = Ok {| Routes.content := {[ "text" := VStr "X" ]}; Routes.status_code := 200 |} /\
   (Routes.generate_text sample_request
      (returning (completion_response [infinite_choice])) []).1
   = Raise (Raised NameError "name 'openai' is not defined")) /\
  ((Routes.translate_text sample_translation_request
      (returning (bare_chat_response "Y")) []).1
   = Ok {| Routes.content := {[ "translation" := VStr "Y" ]};
           Routes.status_code := 200 |} /\
   (Routes.translate_text sample_translation_request
      (returning (completion_response [infinite_choice])) []).1
   = Raise (Raised NameError "name 'openai' is not defined")) /\
  ((Routes.complete_code sample_request
      (returning (completion_response [text_choice "X"])) []).1
   = Ok {| Routes.content := {[ "code" := VStr "X" ]}; Routes.status_code := 200 |} /\
   (Routes.complete_code sample_request
      (returning (completion_response [infinite_choice])) []).1
   = Raise (Raised NameError "name 'openai' is not defined")).
Proof.
  pose proof (X1_routes_answer_200_with_the_extracted_field
                (returning (completion_response [text_choice "X"])) []
                sample_request sample_translation_request
                (completion_response [text_choice "X"]) (VStr "X"))
    as (Hg & _ & Hc).
  pose proof (X1_routes_answer_200_with_the_extracted_field
                (returning (bare_chat_response "Y")) []
                sample_request sample_translation_request
                (bare_chat_response "Y") (VStr "Y")) as (_ & Ht & _).
  pose proof (X1_routes_answer_200_with_the_extracted_field
                (returning (completion_response [infinite_choice])) []
                sample_request sample_translation_request
                (completion_response [infinite_choice]) (VFloat infinity))
    as (Hg' & Ht' & Hc').
  destruct Hg as [Hg _]; [reflexivity | reflexivity |].
  destruct Ht as [Ht _]; [reflexivity | reflexivity |].
  destruct Hc as [Hc _]; [reflexivity | reflexivity |].
  destruct Hg' as [_ Hg']; [reflexivity | reflexivity |].
  destruct Ht' as [_ Ht']; [reflexivity | reflexivity |].
  destruct Hc' as [_ Hc']; [reflexivity | reflexivity |].
  split; [| split]; (split; [auto |]).
  - apply (Hg' (Raised ValueError "Out of range float values are not JSON compliant")).
    reflexivity.
  - apply (Ht' (Raised ValueError "Out of range float values are not JSON compliant")).
    reflexivity.
  - apply (Hc' (Raised ValueError "Out of range float values are not JSON compliant")).
    reflexivity.
Defined.

(** X2: whenever the service operation behind a route raises, whatever the
    exception, the route raises [NameError("name 'openai' is not defined")]:
    the module of the routes never imports [openai], so evaluating its first
    [except] clause fails before any handler runs, and the exception of the
    service, with its status and detail, is replaced. *)
Theorem X2_route_failure_is_NameError
    (E : env) (log : list call) (r : generation_request)
    (tr : translation_request) (e : exc) :
  ((OpenAIService.generate_text
      (bind_defaults Routes.generate_text_defaults r) E log).1 = Raise e ->
   (Routes.generate_text r E log).1
   = Raise (Raised NameError "name 'openai' is not defined")) /\
  ((OpenAIService.translate_text (bind_translation tr) E log).1 = Raise e ->
   (Routes.translate_text tr E log).1
   = Raise (Raised NameError "name 'openai' is not defined")) /\
  ((OpenAIService.complete_code
      (bind_defaults Routes.complete_code_defaults r) E log).1 = Raise e ->
   (Routes.complete_code r E log).1
   = Raise (Raised NameError "name 'openai' is not defined")).
Proof.
  split; [| split]; intros H.
  - rewrite routes_generate_text_run, H. reflexivity.
  - rewrite routes_translate_text_run, H. reflexivity.
  - rewrite routes_complete_code_run, H. reflexivity.
Qed.

Lemma X2_witness :
  (Routes.generate_text sample_request
     (raising (Raised APIError "quota exceeded")) []).1
  = Raise (Raised NameError "name 'openai' is not defined") /\
  (Routes.translate_text sample_translation_request
     (returning (completion_response [])) []).1
  = Raise (Raised NameError "name 'openai' is not defined") /\
  (Routes.complete_code sample_request
     (raising (Raised APIConnectionError "connection reset")) []).1
  = Raise (Raised NameError "name 'openai' is not defined").
Proof.
  split; [| split].
  - apply (proj1 (X2_route_failure_is_NameError
                    (raising (Raised APIError "quota exceeded")) []
                    sample_request sample_translation_request
                    (HTTPException 500
                       "Error generating text: 500: OpenAI API Error: quota exceeded"))).
    reflexivity.
  - apply (proj1 (proj2 (X2_route_failure_is_NameError
                           (returning (completion_response [])) []
                           sample_request sample_translation_request
                           (HTTPException 500
                              "Error translating text: list index out of range")))).
    reflexivity.
  - apply (proj2 (proj2 (X2_route_failure_is_NameError
                           (raising (Raised APIConnectionError "connection reset")) []
                           sample_request sample_translation_request
                           (HTTPException 500
                              "Error completing code: 500: Error completing code: connection reset")))).
    reflexivity.
Defined.

(** X3: a route has two outcomes only, for every request, provider and
    history: a [JSONResponse] of status 200 whose content has exactly the
    operation's key, or the [NameError] above.  No route ever raises an
    [HTTPException]; both of its [except] clauses are dead. *)
Theorem X3_routes_return_200_or_NameError
    (E : env) (log : list call) (r : generation_request) (tr : translation_request) :
  ((exists v, (Routes.generate_text r E log).1
              = Ok {| Routes.content := {[ "text" := v ]}; Routes.status_code := 200 |}) \/
   (Routes.generate_text r E log).1
   = Raise (Raised NameError "name 'openai' is not defined")) /\
  ((exists v, (Routes.translate_text tr E log).1
              = Ok {| Routes.content := {[ "translation" := v ]};
                      Routes.status_code := 200 |}) \/
   (Routes.translate_text tr E log).1
   = Raise (Raised NameError "name 'openai' is not defined")) /\
  ((exists v, (Routes.complete_code r E log).1
              = Ok {| Routes.content := {[ "code" := v ]}; Routes.status_code := 200 |}) \/
   (Routes.complete_code r E log).1
   = Raise (Raised NameError "name 'openai' is not defined")).
Proof.
  rewrite routes_generate_text_run, routes_translate_text_run,
    routes_complete_code_run.
  rewrite service_generate_text_run, service_translate_text_run,
    service_complete_code_run.
  cbn [fst snd]. unfold service_outcome, route_outcome.
  split; [| split].
  - destruct (OpenAIUtils.generate_text _ E log).1 as [v|e]; [| by right].
    destruct (OpenAIService.choices_0_text v) as [x|e]; [| by right].
    destruct (JSONResponse_render E _); [by right | left; eauto].
  - destruct (OpenAIUtils.translate_text _ E log).1 as [v|e]; [| by right].
    destruct (OpenAIService.choices_0_message_content v) as [x|e]; [| by right].
    destruct (JSONResponse_render E _); [by right | left; eauto].
  - destruct (OpenAIUtils.complete_code _ E log).1 as [v|e]; [| by right].
    destruct (OpenAIService.choices_0_text v) as [x|e]; [| by right].
    destruct (JSONResponse_render E _); [by right | left; eauto].
Qed.

(** X4: one request, one provider call, at every layer and whatever the
    outcome: the route, the service and the adapter leave the same log, the
    history extended by the single call built from the arguments.  Nothing is
    retried, and no failure prevents or repeats the call. *)
Theorem X4_one_provider_call_per_request
    (E : env) (log : list call) (r : generation_request) (tr : translation_request) :
  let g := bind_defaults Routes.generate_text_defaults r in
  let c := bind_defaults Routes.complete_code_defaults r in
  let t := bind_translation tr in
  ((Routes.generate_text r E log).2 = log ++ [Completion_create (completion_kwargs g)] /\
   (OpenAIService.generate_text g E log).2 = (Routes.generate_text r E log).2 /\
   (OpenAIUtils.generate_text g E log).2 = (Routes.generate_text r E log).2) /\
  ((Routes.translate_text tr E log).2 = log ++ [translation_call t] /\
   (OpenAIService.translate_text t E log).2 = (Routes.translate_text tr E log).2 /\
   (OpenAIUtils.translate_text t E log).2 = (Routes.translate_text tr E log).2) /\
  ((Routes.complete_code r E log).2 = log ++ [Completion_create (completion_kwargs c)] /\
   (OpenAIService.complete_code c E log).2 = (Routes.complete_code r E log).2 /\
   (OpenAIUtils.complete_code c E log).2 = (Routes.complete_code r E log).2).
Proof.
  intros g c t. subst g c t.
  rewrite routes_generate_text_run, routes_translate_text_run,
    routes_complete_code_run.
  rewrite service_generate_text_run, service_translate_text_run,
    service_complete_code_run.
  rewrite utils_generate_text_run, utils_translate_text_run,
    utils_complete_code_run.
  repeat split; reflexivity.
Qed.

(** X5: what a request leaves out is sent with the defaults of the route's
    signature.  The provider call of the generation route carries the
    request's prompt under [prompt] and its model under [engine],
    ["text-davinci-003"] when the request names none (["code-davinci-002"]
    for code completion), temperature 0.7 and both penalties 0.0 unless the
    request sets them; the translation route sends its model under [model],
    ["gpt-3.5-turbo"] by default. *)
Theorem X5_routes_send_signature_defaults
    (E : env) (log : list call) (r : generation_request) (tr : translation_request) :
  (exists kw,
     (Routes.generate_text r E log).2 = log ++ [Completion_create kw] /\
     kw !! "prompt" = Some (VStr (req_prompt r)) /\
     kw !! "engine" = Some (VStr (default "text-davinci-003" (req_model r))) /\
     kw !! "temperature" = Some (VFloat (default 0.7%float (req_temperature r))) /\
     kw !! "frequency_penalty"
     = Some (VFloat (default 0.0%float (req_frequency_penalty r))) /\
     kw !! "presence_penalty"
     = Some (VFloat (default 0.0%float (req_presence_penalty r)))) /\
  (exists kw,
     (Routes.complete_code r E log).2 = log ++ [Completion_create kw] /\
     kw !! "prompt" = Some (VStr (req_prompt r)) /\
     kw !! "engine" = Some (VStr (default "code-davinci-002" (req_model r))) /\
     kw !! "temperature" = Some (VFloat (default 0.7%float (req_temperature r))) /\
     kw !! "frequency_penalty"
     = Some (VFloat (default 0.0%float (req_frequency_penalty r))) /\
     kw !! "presence_penalty"
     = Some (VFloat (default 0.0%float (req_presence_penalty r)))) /\
  (exists kw,
     (Routes.translate_text tr E log).2 = log ++ [ChatCompletion_create kw] /\
     kw !! "model" = Some (VStr (default "gpt-3.5-turbo" (req_translation_model tr))) /\
     dom kw = {[ "model"; "messages" ]}).
Proof.
  rewrite routes_generate_text_run, routes_translate_text_run,
    routes_complete_code_run.
  cbn [fst snd].
  split; [| split]; eexists; (split; [reflexivity |]).
  - repeat split; reflexivity.
  - repeat split; reflexivity.
  - split; [reflexivity |].
    rewrite dom_insert_L, dom_singleton_L. reflexivity.
Qed.

(* ===================================================================== *)
(** ** The adapter on every outcome of the provider *)
(* ===================================================================== *)

(** X6: the three adapter operations hand the provider's response back as
    it is, unread and unvalidated, and turn an exception [e] of the call
    that derives from [Exception] into an [HTTPException] of status 500
    whose detail is ["OpenAI API Error: " + str(e)] when [e] is an
    [APIError] and the operation's prefix followed by [str(e)] otherwise. *)
Theorem X6_adapter_outcomes
    (E : env) (log : list call) (a : generation_args) (t : translation_args) :
  (forall response,
      provider E log (Completion_create (completion_kwargs a)) = Ok response ->
      (OpenAIUtils.generate_text a E log).1 = Ok response /\
      (OpenAIUtils.complete_code a E log).1 = Ok response) /\
  (forall response,
      provider E log (translation_call t) = Ok response ->
      (OpenAIUtils.translate_text t E log).1 = Ok response) /\
  (forall e,
      isinstance e Exception = true ->
      let marker (generic : string) :=
        if isinstance e APIError then "OpenAI API Error: " else generic in
      (provider E log (Completion_create (completion_kwargs a)) = Raise e ->
       (OpenAIUtils.generate_text a E log).1
       = Raise (HTTPException 500 (marker "Error generating text: " +:+ str E e)) /\
       (OpenAIUtils.complete_code a E log).1
       = Raise (HTTPException 500 (marker "Error completing code: " +:+ str E e))) /\
      (provider E log (translation_call t) = Raise e ->
       (OpenAIUtils.translate_text t E log).1
       = Raise (HTTPException 500 (marker "Error translating text: " +:+ str E e)))).
Proof.
  rewrite utils_generate_text_run, utils_translate_text_run,
    utils_complete_code_run.
  cbn [fst]. split; [| split].
  - intros response ->. split; reflexivity.
  - intros response ->. reflexivity.
  - intros e _. cbv zeta beta.
    split; intros ->; [split |]; reflexivity.
Qed.

Lemma X6_witness :
  ((OpenAIUtils.generate_text sample_args (returning VNone) []).1 = Ok VNone /\
   (OpenAIUtils.complete_code sample_args (returning VNone) []).1 = Ok VNone) /\
  (OpenAIUtils.translate_text sample_translation (returning VNone) []).1 = Ok VNone /\
  ((OpenAIUtils.generate_text sample_args
      (raising (Raised APIError "quota exceeded")) []).1
   = Raise (HTTPException 500 "OpenAI API Error: quota exceeded") /\
   (OpenAIUtils.complete_code sample_args
      (raising (Raised APIError "quota exceeded")) []).1
   = Raise (HTTPException 500 "OpenAI API Error: quota exceeded")) /\
  (OpenAIUtils.translate_text sample_translation
     (raising (Raised TypeError "bad argument")) []).1
  = Raise (HTTPException 500 "Error translating text: bad argument").
Proof.
  pose proof (X6_adapter_outcomes (returning VNone) [] sample_args sample_translation)
    as (Hg & Ht & _).
  pose proof (X6_adapter_outcomes (raising (Raised APIError "quota exceeded")) []
                sample_args sample_translation) as (_ & _ & Hapi).
  pose proof (X6_adapter_outcomes (raising (Raised TypeError "bad argument")) []
                sample_args sample_translation) as (_ & _ & Hother).
  split; [apply (Hg VNone); reflexivity |].
  split; [apply (Ht VNone); reflexivity |].
  split.
  - apply (Hapi (Raised APIError "quota exceeded")); reflexivity.
  - apply (Hother (Raised TypeError "bad argument")); reflexivity.
Defined.

(** X7: only an [APIError] is reported as an upstream fault.  For a
    provider exception of any other modelled class (a rate limit, a
    connection failure, the library's base error, a built-in error) the
    detail of the adapter begins with the operation's own prefix. *)
Theorem X7_other_provider_errors_get_the_generic_prefix
    (E : env) (log : list call) (a : generation_args) (t : translation_args)
    (cls : exc_class) (msg : string) :
  cls <> APIError ->
  (provider E log (Completion_create (completion_kwargs a)) = Raise (Raised cls msg) ->
   (OpenAIUtils.generate_text a E log).1
   = Raise (HTTPException 500 ("Error generating text: " +:+ msg)) /\
   (OpenAIUtils.complete_code a E log).1
   = Raise (HTTPException 500 ("Error completing code: " +:+ msg))) /\
  (provider E log (translation_call t) = Raise (Raised cls msg) ->
   (OpenAIUtils.translate_text t E log).1
   = Raise (HTTPException 500 ("Error translating text: " +:+ msg))).
Proof.
  intros Hcls.
  assert (Hno : isinstance (Raised cls msg) APIError = false).
  { destruct cls; try reflexivity. congruence. }
  split; intros Hp.
  - rewrite utils_generate_text_run, utils_complete_code_run, Hp.
    cbv beta iota delta [adapter_outcome fst]. rewrite Hno. split; reflexivity.
  - rewrite utils_translate_text_run, Hp.
    cbv beta iota delta [adapter_outcome fst]. rewrite Hno. reflexivity.
Qed.

Lemma X7_witness :
  ((OpenAIUtils.generate_text sample_args
      (raising (Raised RateLimitError "rate limit reached")) []).1
   = Raise (HTTPException 500 "Error generating text: rate limit reached") /\
   (OpenAIUtils.complete_code sample_args
      (raising (Raised RateLimitError "rate limit reached")) []).1
   = Raise (HTTPException 500 "Error completing code: rate limit reached")) /\
  (OpenAIUtils.translate_text sample_translation
     (raising (Raised RateLimitError "rate limit reached")) []).1
  = Raise (HTTPException 500 "Error translating text: rate limit reached").
Proof.
  destruct (X7_other_provider_errors_get_the_generic_prefix
              (raising (Raised RateLimitError "rate limit reached")) []
              sample_args sample_translation RateLimitError "rate limit reached")
    as [Hg Ht]; [discriminate |].
  split; [apply Hg | apply Ht]; reflexivity.
Defined.

(* ===================================================================== *)
(** ** The service on malformed responses *)
(* ===================================================================== *)

(** X8: a completion response without the field the service reads.  When
    the response object has no [choices], [generate_text] and
    [complete_code] raise an [HTTPException] of status 500 whose detail is
    their prefix followed by the missing name, [choices]; when its first
    choice has no [text], by [text]. *)
Theorem X8_missing_completion_field
    (E : env) (log : list call) (a : generation_args) (d : gmap string value) :
  provider E log (Completion_create (completion_kwargs a)) = Ok (VObj d) ->
  (d !! "choices" = None ->
   (OpenAIService.generate_text a E log).1
   = Raise (HTTPException 500 "Error generating text: choices") /\
   (OpenAIService.complete_code a E log).1
   = Raise (HTTPException 500 "Error completing code: choices")) /\
  (forall (choice : gmap string value) (others : list value),
      d !! "choices" = Some (VList (VObj choice :: others)) ->
      choice !! "text" = None ->
      (OpenAIService.generate_text a E log).1
      = Raise (HTTPException 500 "Error generating text: text") /\
      (OpenAIService.complete_code a E log).1
      = Raise (HTTPException 500 "Error completing code: text")).
Proof.
  intros Hp.
  rewrite service_generate_text_run, service_complete_code_run.
  rewrite utils_generate_text_run, utils_complete_code_run, Hp.
  cbn [fst adapter_outcome service_outcome].
  unfold OpenAIService.choices_0_text.
  split.
  - intros Hd. simpl. rewrite Hd. split; reflexivity.
  - intros choice others Hd Hc. simpl. rewrite Hd. simpl. rewrite Hc.
    split; reflexivity.
Qed.

Lemma X8_witness :
  ((OpenAIService.generate_text sample_args (returning (VObj ∅)) []).1
   = Raise (HTTPException 500 "Error generating text: choices") /\
   (OpenAIService.complete_code sample_args (returning (VObj ∅)) []).1
   = Raise (HTTPException 500 "Error completing code: choices")) /\
  ((OpenAIService.generate_text sample_args
      (returning (completion_response [message_choice "Y"])) []).1
   = Raise (HTTPException 500 "Error generating text: text") /\
   (OpenAIService.complete_code sample_args
      (returning (completion_response [message_choice "Y"])) []).1
   = Raise (HTTPException 500 "Error completing code: text")).
Proof.
  split.
  - apply (proj1 (X8_missing_completion_field
                    (returning (VObj ∅)) [] sample_args ∅ eq_refl)).
    reflexivity.
  - apply (proj2 (X8_missing_completion_field
                    (returning (completion_response [message_choice "Y"])) []
                    sample_args
                    {[ "object" := VStr "text_completion";
                       "choices" := VList [message_choice "Y"] ]} eq_refl)
                 {[ "index" := VInt 0;
                    "message" := VObj {[ "role" := VStr "assistant";
                                         "content" := VStr "Y" ]} ]} []);
      reflexivity.
Defined.

(** X9: a chat response without the field the service reads.
    [translate_text] raises an [HTTPException] of status 500 whose detail is
    its prefix followed by the first missing name on the path
    [choices[0].message.content]: [choices], [message] or [content]. *)
Theorem X9_missing_translation_field
    (E : env) (log : list call) (t : translation_args) (d : gmap string value) :
  provider E log (translation_call t) = Ok (VObj d) ->
  (d !! "choices" = None ->
   (OpenAIService.translate_text t E log).1
   = Raise (HTTPException 500 "Error translating text: choices")) /\
  (forall (choice : gmap string value) (others : list value),
      d !! "choices" = Some (VList (VObj choice :: others)) ->
      (choice !! "message" = None ->
       (OpenAIService.translate_text t E log).1
       = Raise (HTTPException 500 "Error translating text: message")) /\
      (forall message : gmap string value,
          choice !! "message" = Some (VObj message) ->
          message !! "content" = None ->
          (OpenAIService.translate_text t E log).1
          = Raise (HTTPException 500 "Error translating text: content"))).
Proof.
  intros Hp.
  rewrite service_translate_text_run, utils_translate_text_run, Hp.
  cbn [fst adapter_outcome service_outcome].
  unfold OpenAIService.choices_0_message_content.
  split.
  - intros Hd. simpl. rewrite Hd. reflexivity.
  - intros choice others Hd. simpl. rewrite Hd. simpl. split.
    + intros Hc. rewrite Hc. reflexivity.
    + intros message Hc Hm. rewrite Hc. simpl. rewrite Hm. reflexivity.
Qed.

Lemma X9_witness :
  (OpenAIService.translate_text sample_translation (returning (VObj ∅)) []).1
  = Raise (HTTPException 500 "Error translating text: choices") /\
  (OpenAIService.translate_text sample_translation
     (returning (completion_response [text_choice "X"])) []).1
  = Raise (HTTPException 500 "Error translating text: message") /\
  (OpenAIService.translate_text sample_translation
     (returning (VObj {[ "choices" :=
                           VList [VObj {[ "message" :=
                                            VObj {[ "role" := VStr "assistant" ]} ]}] ]}))
     []).1
  = Raise (HTTPException 500 "Error translating text: content").
Proof.
  split; [| split].
  - apply (proj1 (X9_missing_translation_field
                    (returning (VObj ∅)) [] sample_translation ∅ eq_refl)).
    reflexivity.
  - destruct (X9_missing_translation_field
                (returning (completion_response [text_choice "X"])) []
                sample_translation
                {[ "object" := VStr "text_completion";
                   "choices" := VList [text_choice "X"] ]} eq_refl) as [_ H].
    destruct (H {[ "text" := VStr "X"; "index" := VInt 0 ]} []) as [Hm _];
      [reflexivity |].
    apply Hm. reflexivity.
  - destruct (X9_missing_translation_field
                (returning
                   (VObj {[ "choices" :=
                              VList [VObj {[ "message" :=
                                               VObj {[ "role" := VStr "assistant" ]} ]}] ]}))
                [] sample_translation
                {[ "choices" :=
                     VList [VObj {[ "message" :=
                                      VObj {[ "role" := VStr "assistant" ]} ]}] ]}
                eq_refl) as [_ H].
    destruct (H {[ "message" := VObj {[ "role" := VStr "assistant" ]} ]} [])
      as [_ Hc]; [reflexivity |].
    apply (Hc {[ "role" := VStr "assistant" ]}); reflexivity.
Defined.

Lemma getattr_non_object (v : value) (name : string) :
  (forall d, v <> VObj d) ->
  getattr v name
  = Raise (Raised AttributeError
             ("'" +:+ type_name v +:+ "' object has no attribute '" +:+ name +:+ "'")).
Proof. intros Hv. destruct v; try reflexivity. by destruct (Hv d). Qed.

(** X10: a first choice that is not an [OpenAIObject] (a plain [dict], as
    in the mock of [tests/test_utils.py], a string, [None], ...) has no
    attributes to read: the three service operations raise an
    [HTTPException] of status 500 whose detail is their prefix followed by
    ["'<type>' object has no attribute 'text'"] (['message'] for a
    translation), whatever the choice holds. *)
Theorem X10_choice_without_attribute_access
    (E : env) (log : list call) (a : generation_args) (t : translation_args)
    (r choice : value) (others : list value) :
  getattr r "choices" = Ok (VList (choice :: others)) ->
  (forall d, choice <> VObj d) ->
  (provider E log (Completion_create (completion_kwargs a)) = Ok r ->
   (OpenAIService.generate_text a E log).1
   = Raise (HTTPException 500
              ("Error generating text: '" +:+ type_name choice
               +:+ "' object has no attribute 'text'")) /\
   (OpenAIService.complete_code a E log).1
   = Raise (HTTPException 500
              ("Error completing code: '" +:+ type_name choice
               +:+ "' object has no attribute 'text'"))) /\
  (provider E log (translation_call t) = Ok r ->
   (OpenAIService.translate_text t E log).1
   = Raise (HTTPException 500
              ("Error translating text: '" +:+ type_name choice
               +:+ "' object has no attribute 'message'"))).
Proof.
  intros Hcs Hchoice.
  assert (Ht : OpenAIService.choices_0_text r
               = Raise (Raised AttributeError
                          ("'" +:+ type_name choice
                           +:+ "' object has no attribute 'text'"))).
  { unfold OpenAIService.choices_0_text. rewrite Hcs. simpl.
    by rewrite getattr_non_object. }
  assert (Hm : OpenAIService.choices_0_message_content r
               = Raise (Raised AttributeError
                          ("'" +:+ type_name choice
                           +:+ "' object has no attribute 'message'"))).
  { unfold OpenAIService.choices_0_message_content. rewrite Hcs. simpl.
    by rewrite getattr_non_object. }
  split; intros Hp.
  - rewrite service_generate_text_run, service_complete_code_run.
    rewrite utils_generate_text_run, utils_complete_code_run, Hp.
    cbn [fst adapter_outcome service_outcome]. rewrite Ht.
    split; reflexivity.
  - rewrite service_translate_text_run, utils_translate_text_run, Hp.
    cbn [fst adapter_outcome service_outcome]. rewrite Hm. reflexivity.
Qed.

Lemma X10_witness :
  ((OpenAIService.generate_text sample_args
      (returning (VObj {[ "choices" := VList [mock_choice] ]})) []).1
   = Raise (HTTPException 500
              "Error generating text: 'dict' object has no attribute 'text'") /\
   (OpenAIService.complete_code sample_args
      (returning (VObj {[ "choices" := VList [mock_choice] ]})) []).1
   = Raise (HTTPException 500
              "Error completing code: 'dict' object has no attribute 'text'")) /\
  (OpenAIService.translate_text sample_translation
     (returning (VObj {[ "choices" := VList [mock_choice] ]})) []).1
  = Raise (HTTPException 500
             "Error translating text: 'dict' object has no attribute 'message'").
Proof.
  destruct (X10_choice_without_attribute_access
              (returning (VObj {[ "choices" := VList [mock_choice] ]})) []
              sample_args sample_translation
              (VObj {[ "choices" := VList [mock_choice] ]}) mock_choice [])
    as [Hg Ht]; [reflexivity | discriminate |].
  split; [apply Hg | apply Ht]; reflexivity.
Defined.

(** X11: a response that is not an [OpenAIObject] at all ([None], a string,
    a plain [dict], ...) is handed by the adapter to the service as it is,
    and each service operation raises an [HTTPException] of status 500 whose
    detail is its prefix followed by
    ["'<type>' object has no attribute 'choices'"]. *)
Theorem X11_response_without_attribute_access
    (E : env) (log : list call) (a : generation_args) (t : translation_args)
    (r : value) :
  (forall d, r <> VObj d) ->
  (provider E log (Completion_create (completion_kwargs a)) = Ok r ->
   (OpenAIUtils.generate_text a E log).1 = Ok r /\
   (OpenAIService.generate_text a E log).1
   = Raise (HTTPException 500
              ("Error generating text: '" +:+ type_name r
               +:+ "' object has no attribute 'choices'")) /\
   (OpenAIService.complete_code a E log).1
   = Raise (HTTPException 500
              ("Error completing code: '" +:+ type_name r
               +:+ "' object has no attribute 'choices'"))) /\
  (provider E log (translation_call t) = Ok r ->
   (OpenAIUtils.translate_text t E log).1 = Ok r /\
   (OpenAIService.translate_text t E log).1
   = Raise (HTTPException 500
              ("Error translating text: '" +:+ type_name r
               +:+ "' object has no attribute 'choices'"))).
Proof.
  intros Hr.
  assert (Ht : OpenAIService.choices_0_text r
               = Raise (Raised AttributeError
                          ("'" +:+ type_name r
                           +:+ "' object has no attribute 'choices'"))).
  { unfold OpenAIService.choices_0_text. by rewrite getattr_non_object. }
  assert (Hm : OpenAIService.choices_0_message_content r
               = Raise (Raised AttributeError
                          ("'" +:+ type_name r
                           +:+ "' object has no attribute 'choices'"))).
  { unfold OpenAIService.choices_0_message_content. by rewrite getattr_non_object. }
  split; intros Hp.
  - rewrite service_generate_text_run, service_complete_code_run.
    rewrite utils_generate_text_run, utils_complete_code_run, Hp.
    cbn [fst adapter_outcome service_outcome]. rewrite Ht.
    repeat split; reflexivity.
  - rewrite service_translate_text_run, utils_translate_text_run, Hp.
    cbn [fst adapter_outcome service_outcome]. rewrite Hm.
    split; reflexivity.
Qed.

Lemma X11_witness :
  ((OpenAIUtils.generate_text sample_args (returning VNone) []).1 = Ok VNone /\
   (OpenAIService.generate_text sample_args (returning VNone) []).1
   = Raise (HTTPException 500
              "Error generating text: 'NoneType' object has no attribute 'choices'") /\
   (OpenAIService.complete_code sample_args (returning VNone) []).1
   = Raise (HTTPException 500
              "Error completing code: 'NoneType' object has no attribute 'choices'")) /\
  ((OpenAIUtils.translate_text sample_translation (returning VNone) []).1 = Ok VNone /\
   (OpenAIService.translate_text sample_translation (returning VNone) []).1
   = Raise (HTTPException 500
              "Error translating text: 'NoneType' object has no attribute 'choices'")).
Proof.
  destruct (X11_response_without_attribute_access
              (returning VNone) [] sample_args sample_translation VNone)
    as [Hg Ht]; [discriminate |].
  split; [apply Hg | apply Ht]; reflexivity.
Defined.

(* ===================================================================== *)
(** ** The service on every outcome *)
(* ===================================================================== *)

(** X12: as long as the provider call returns, or raises an exception that
    derives from [Exception], a service operation has two outcomes only,
    whatever the response holds: the single-key mapping of the operation, or
    an [HTTPException] of status 500 whose detail begins with the
    operation's generic prefix.  No [IndexError], [AttributeError],
    [KeyError] or [TypeError] of the extraction leaves the service. *)
Theorem X12_service_returns_mapping_or_500
    (E : env) (log : list call) (a : generation_args) (t : translation_args) :
  ((forall e, provider E log (Completion_create (completion_kwargs a)) = Raise e ->
              isinstance e Exception = true) ->
   ((exists v, (OpenAIService.generate_text a E log).1 = Ok {[ "text" := v ]}) \/
    (exists d, (OpenAIService.generate_text a E log).1
               = Raise (HTTPException 500 ("Error generating text: " +:+ d)))) /\
   ((exists v, (OpenAIService.complete_code a E log).1 = Ok {[ "code" := v ]}) \/
    (exists d, (OpenAIService.complete_code a E log).1
               = Raise (HTTPException 500 ("Error completing code: " +:+ d))))) /\
  ((forall e, provider E log (translation_call t) = Raise e ->
              isinstance e Exception = true) ->
   (exists v, (OpenAIService.translate_text t E log).1 = Ok {[ "translation" := v ]}) \/
   (exists d, (OpenAIService.translate_text t E log).1
              = Raise (HTTPException 500 ("Error translating text: " +:+ d)))).
Proof.
  rewrite service_generate_text_run, service_translate_text_run,
    service_complete_code_run.
  cbn [fst]. unfold service_outcome.
  split; intros _; [split |].
  - destruct (OpenAIUtils.generate_text _ E log).1 as [v|e]; [| right; eauto].
    destruct (OpenAIService.choices_0_text v); [left | right]; eauto.
  - destruct (OpenAIUtils.complete_code _ E log).1 as [v|e]; [| right; eauto].
    destruct (OpenAIService.choices_0_text v); [left | right]; eauto.
  - destruct (OpenAIUtils.translate_text _ E log).1 as [v|e]; [| right; eauto].
    destruct (OpenAIService.choices_0_message_content v); [left | right]; eauto.
Qed.

Lemma X12_witness :
  (((exists v, (OpenAIService.generate_text sample_args
                  (raising (Raised RateLimitError "rate limit reached")) []).1
               = Ok {[ "text" := v ]}) \/
    (exists d, (OpenAIService.generate_text sample_args
                  (raising (Raised RateLimitError "rate limit reached")) []).1
               = Raise (HTTPException 500 ("Error generating text: " +:+ d)))) /\
   ((exists v, (OpenAIService.complete_code sample_args
                  (raising (Raised RateLimitError "rate limit reached")) []).1
               = Ok {[ "code" := v ]}) \/
    (exists d, (OpenAIService.complete_code sample_args
                  (raising (Raised RateLimitError "rate limit reached")) []).1
               = Raise (HTTPException 500 ("Error completing code: " +:+ d))))) /\
  ((exists v, (OpenAIService.translate_text sample_translation
                 (returning (completion_response [mock_choice])) []).1
              = Ok {[ "translation" := v ]}) \/
   (exists d, (OpenAIService.translate_text sample_translation
                 (returning (completion_response [mock_choice])) []).1
              = Raise (HTTPException 500 ("Error translating text: " +:+ d)))).
Proof.
  split.
  - apply (proj1 (X12_service_returns_mapping_or_500
                    (raising (Raised RateLimitError "rate limit reached")) []
                    sample_args sample_translation)).
    intros e [= <-]. reflexivity.
  - apply (proj2 (X12_service_returns_mapping_or_500
                    (returning (completion_response [mock_choice])) []
                    sample_args sample_translation)).
    intros e. discriminate.
Defined.

(** X13: an exception [e] of the provider call that derives from
    [Exception] reaches the caller of the service wrapped twice: the detail
    of the service's [HTTPException] is its generic prefix followed by
    [str()] of the adapter's [HTTPException], whose own detail is the
    adapter's marker followed by [str(e)].  What the caller sees of [e] is
    what [str()] of an [HTTPException] shows. *)
Theorem X13_provider_errors_are_wrapped_twice
    (E : env) (log : list call) (a : generation_args) (t : translation_args)
    (e : exc) :
  isinstance e Exception = true ->
  let marker (generic : string) :=
    if isinstance e APIError then "OpenAI API Error: " else generic in
  (provider E log (Completion_create (completion_kwargs a)) = Raise e ->
   (OpenAIService.generate_text a E log).1
   = Raise (HTTPException 500
              ("Error generating text: "
               +:+ str_HTTPException E 500
                     (marker "Error generating text: " +:+ str E e))) /\
   (OpenAIService.complete_code a E log).1
   = Raise (HTTPException 500
              ("Error completing code: "
               +:+ str_HTTPException E 500
                     (marker "Error completing code: " +:+ str E e)))) /\
  (provider E log (translation_call t) = Raise e ->
   (OpenAIService.translate_text t E log).1
   = Raise (HTTPException 500
              ("Error translating text: "
               +:+ str_HTTPException E 500
                     (marker "Error translating text: " +:+ str E e)))).
Proof.
  intros _ marker. subst marker. cbv beta.
  split; intros Hp.
  - rewrite service_generate_text_run, service_complete_code_run.
    rewrite utils_generate_text_run, utils_complete_code_run, Hp.
    split; reflexivity.
  - rewrite service_translate_text_run, utils_translate_text_run, Hp.
    reflexivity.
Qed.

Lemma X13_witness :
  ((OpenAIService.generate_text sample_args
      (raising (Raised APIConnectionError "connection reset")) []).1
   = Raise (HTTPException 500
              "Error generating text: 500: Error generating text: connection reset") /\
   (OpenAIService.complete_code sample_args
      (raising (Raised APIConnectionError "connection reset")) []).1
   = Raise (HTTPException 500
              "Error completing code: 500: Error completing code: connection reset")) /\
  (OpenAIService.translate_text sample_translation
     (stub (Raise (Raised APIConnectionError "connection reset")) str_no_args) []).1
  = Raise (HTTPException 500 "Error translating text: ").
Proof.
  split.
  - apply (proj1 (X13_provider_errors_are_wrapped_twice
                    (raising (Raised APIConnectionError "connection reset")) []
                    sample_args sample_translation
                    (Raised APIConnectionError "connection reset") eq_refl)).
    reflexivity.
  - apply (proj2 (X13_provider_errors_are_wrapped_twice
                    (stub (Raise (Raised APIConnectionError "connection reset"))
                          str_no_args) []
                    sample_args sample_translation
                    (Raised APIConnectionError "connection reset") eq_refl)).
    reflexivity.
Defined.

(** X14: at the service too, [complete_code] is [generate_text] under
    another key: on the same arguments both make the same provider call, and
    either both return, the same value under ["code"] and under ["text"], or
    both raise an [HTTPException] of status 500. *)
Theorem X14_service_complete_code_is_generate_text
    (E : env) (log : list call) (a : generation_args) :
  (OpenAIService.complete_code a E log).2 = (OpenAIService.generate_text a E log).2 /\
  match (OpenAIService.generate_text a E log).1,
        (OpenAIService.complete_code a E log).1 with
  | Ok m1, Ok m2 => exists v, m1 = {[ "text" := v ]} /\ m2 = {[ "code" := v ]}
  | Raise (HTTPException s1 d1), Raise (HTTPException s2 d2) =>
      s1 = 500 /\ s2 = 500 /\
      String.prefix "Error generating text: " d1 = true /\
      String.prefix "Error completing code: " d2 = true
  | _, _ => False
  end.
Proof.
  rewrite service_generate_text_run, service_complete_code_run.
  rewrite utils_generate_text_run, utils_complete_code_run.
  cbn [fst snd]. split; [reflexivity |].
  destruct (provider E log _) as [r|e]; simpl.
  - destruct (OpenAIService.choices_0_text r); [eauto |].
    repeat split; apply prefix_append.
  - repeat split; apply prefix_append.
Qed.

(* ===================================================================== *)
(** ** The translation prompt *)
(* ===================================================================== *)

Lemma append_assoc (s1 s2 s3 : string) : (s1 +:+ s2) +:+ s3 = s1 +:+ (s2 +:+ s3).
Proof.
  induction s1 as [|c s1 IH]; [reflexivity |].
  change (String c ((s1 +:+ s2) +:+ s3) = String c (s1 +:+ (s2 +:+ s3))).
  by rewrite IH.
Qed.

Lemma length_append (s1 s2 : string) :
  String.length (s1 +:+ s2) = (String.length s1 + String.length s2)%nat.
Proof.
  induction s1 as [|c s1 IH]; [reflexivity |].
  change (S (String.length (s1 +:+ s2)) = S (String.length s1 + String.length s2)).
  by rewrite IH.
Qed.

(** X15: the arguments of [translate_text] are pasted into the prompt
    without escaping, so the prompt does not tell them apart: translating
    the text [x + ": " + y] into language [l] and translating the different
    text [y] into "language" [l + ": " + x] make the very same provider
    call. *)
Theorem X15_translation_prompt_is_ambiguous
    (E : env) (log : list call) (m l x y : string) :
  let a1 := {| text := x +:+ ": " +:+ y; target_language := l;
               translation_model := m |} in
  let a2 := {| text := y; target_language := l +:+ ": " +:+ x;
               translation_model := m |} in
  (OpenAIUtils.translate_text a1 E log).2 = (OpenAIUtils.translate_text a2 E log).2 /\
  (String.length (text a2) < String.length (text a1))%nat.
Proof.
  intros a1 a2. subst a1 a2.
  rewrite !utils_translate_text_run. cbn [fst snd]. split.
  - unfold translation_call. cbn [text target_language translation_model].
    by rewrite !append_assoc.
  - cbn [text]. rewrite !length_append. simpl. lia.
Qed.

(* ===================================================================== *)
(** ** The exception handlers of the application *)
(* ===================================================================== *)

(** X16: what the handler registered for [Exception] makes of a failed
    route.  Whatever went wrong behind the route (the provider, the
    extraction), and for every request, the body built from the route's
    exception is [{"detail": "An unexpected error occurred: name 'openai' is
    not defined"}]: neither the provider's message nor the service's detail
    is in it. *)
Theorem X16_general_handler_after_a_failed_route
    (E : env) (log log' : list call) (request : value)
    (r : generation_request) (tr : translation_request) (e : exc) :
  (Routes.generate_text r E log).1 = Raise e \/
  (Routes.translate_text tr E log).1 = Raise e \/
  (Routes.complete_code r E log).1 = Raise e ->
  Main.general_exception_handler request e E log'
  = (Ok {[ "detail" :=
             VStr "An unexpected error occurred: name 'openai' is not defined" ]},
     log').
Proof.
  rewrite routes_generate_text_run, routes_translate_text_run,
    routes_complete_code_run.
  cbn [fst].
  assert (Hroute : forall (s : result (gmap string value)),
             route_outcome E s = Raise e ->
             e = Raised NameError "name 'openai' is not defined").
  { intros [m|e0]; simpl; [| by intros [= <-]].
    destruct (JSONResponse_render E m); [by intros [= <-] | discriminate]. }
  intros [H | [H | H]]; apply Hroute in H; subst e; reflexivity.
Qed.

Lemma X16_witness :
  Main.general_exception_handler VNone
    (Raised NameError "name 'openai' is not defined")
    (raising (Raised APIError "quota exceeded")) []
  = (Ok {[ "detail" :=
             VStr "An unexpected error occurred: name 'openai' is not defined" ]},
     []).
Proof.
  apply (X16_general_handler_after_a_failed_route
           (raising (Raised APIError "quota exceeded")) [] [] VNone
           sample_request sample_translation_request
           (Raised NameError "name 'openai' is not defined")).
  left. reflexivity.
Defined.

(** X17: what the handler registered for [HTTPException] makes of an error
    of the service.  An exception deriving from [Exception] that a service
    operation raises is an [HTTPException] of status 500, and the handler
    returns for it a mapping with the one key ["detail"], holding the detail
    of the service unchanged; the status code is not part of it. *)
Theorem X17_http_handler_keeps_the_service_detail
    (E : env) (log log' : list call) (request : value)
    (a : generation_args) (t : translation_args) (e : exc) :
  isinstance e Exception = true ->
  (OpenAIService.generate_text a E log).1 = Raise e \/
  (OpenAIService.translate_text t E log).1 = Raise e \/
  (OpenAIService.complete_code a E log).1 = Raise e ->
  exists d,
    e = HTTPException 500 d /\
    Main.http_exception_handler request e E log'
    = (Ok {[ "detail" := VStr d ]}, log').
Proof.
  intros _.
  rewrite service_generate_text_run, service_translate_text_run,
    service_complete_code_run.
  cbn [fst].
  assert (Hservice : forall generic key extract r,
             service_outcome E generic key extract r = Raise e ->
             exists d, e = HTTPException 500 d).
  { intros generic key extract [v|e0]; simpl.
    - destruct (extract v); [discriminate | intros [= <-]; eauto].
    - intros [= <-]; eauto. }
  intros [H | [H | H]]; apply Hservice in H as [d ->]; exists d;
    split; reflexivity.
Qed.

Lemma X17_witness :
  exists d,
    HTTPException 500 "Error generating text: list index out of range"
    = HTTPException 500 d /\
    Main.http_exception_handler VNone
      (HTTPException 500 "Error generating text: list index out of range")
      (returning (completion_response [])) []
    = (Ok {[ "detail" := VStr d ]}, []).
Proof.
  apply (X17_http_handler_keeps_the_service_detail
           (returning (completion_response [])) [] [] VNone
           sample_args sample_translation
           (HTTPException 500 "Error generating text: list index out of range")
           eq_refl).
  left. reflexivity.
Defined.
